(** * A shallow embedding of [runtime/ast_linter.py]

    The linter reads Python source files, parses each one with [ast.parse],
    walks the syntax tree with an [ast.NodeVisitor] and collects [Finding]s;
    [main] prints them and chooses the exit status.

    The embedding follows the source function by function.  What the source
    obtains from the Python standard library is modelled next to it:
    [str.split], [str.startswith], [os.path.normpath] and [os.path.isabs]
    (POSIX flavour).  What depends on the machine is an input of the model:
    the outcome of [open]/[read]/[ast.parse] on a path, whether the
    recursive traversal of a tree stays within the interpreter's recursion
    limit, and whether the standard output takes a text. *)

From Stdlib Require Import ZArith Ascii String List Lia.
From stdpp Require Import base decidable option list strings gmap pretty.

Local Open Scope Z_scope.
Local Open Scope stdpp_scope.
Local Open Scope list_scope.

(** ** Python strings *)

Module PyStr.

(** [s.split(sep)] for a one-character separator: never an empty list. *)
Fixpoint split (sep : ascii) (s : string) : list string :=
  match s with
  | EmptyString => [EmptyString]
  | String c r =>
      if Ascii.eqb c sep then EmptyString :: split sep r
      else match split sep r with
           | h :: t => String c h :: t
           | [] => [String c EmptyString]
           end
  end.

(** [sep.join(parts)] *)
Fixpoint join (sep : string) (parts : list string) : string :=
  match parts with
  | [] => ""
  | [p] => p
  | p :: rest => p +:+ sep +:+ join sep rest
  end.

(** [s.startswith(p)] *)
Definition startswith (s p : string) : bool := String.prefix p s.

(** [c in s] for a character [c] *)
Fixpoint contains (c : ascii) (s : string) : bool :=
  match s with
  | EmptyString => false
  | String d r => Ascii.eqb c d || contains c r
  end.

(** [sep * n] *)
Fixpoint repeat (sep : string) (n : nat) : string :=
  match n with
  | O => ""
  | S k => sep +:+ repeat sep k
  end.

(** Truth value of a string, and of an optional string ([None] or [""]
    are false). *)
Definition truthy (s : string) : bool := negb (bool_decide (s = "")).

Definition truthy_opt (o : option string) : bool :=
  match o with
  | Some s => truthy s
  | None => false
  end.

(** [a or b] where [a] may be [None] *)
Definition or_else (a : option string) (b : string) : string :=
  match a with
  | Some s => if truthy s then s else b
  | None => b
  end.

(** [s.split(".")[0]]: the text before the first dot. *)
Definition top_segment (s : string) : string :=
  hd "" (split "."%char s).

End PyStr.

(** ** [os.path] (posixpath) *)

Module PosixPath.

(** One turn of the loop of [normpath] over the components. *)
Definition norm_step (initial_slashes : nat) (new_comps : list string)
    (comp : string) : list string :=
  if bool_decide (comp = "") || bool_decide (comp = ".") then new_comps
  else if negb (bool_decide (comp = ".."))
          || (Nat.eqb initial_slashes 0 && bool_decide (new_comps = []))
          || (negb (bool_decide (new_comps = []))
              && bool_decide (last new_comps = Some ".."))
       then new_comps ++ [comp]
       else if negb (bool_decide (new_comps = [])) then removelast new_comps
            else new_comps.

Definition normpath (path : string) : string :=
  if bool_decide (path = "") then "."
  else
    let initial_slashes : nat :=
      if PyStr.startswith path "/" then
        if PyStr.startswith path "//" && negb (PyStr.startswith path "///")
        then 2%nat else 1%nat
      else 0%nat in
    let comps := PyStr.split "/"%char path in
    let new_comps := fold_left (norm_step initial_slashes) comps [] in
    let joined := PyStr.join "/" new_comps in
    let path' := PyStr.repeat "/" initial_slashes +:+ joined in
    if bool_decide (path' = "") then "." else path'.

Definition isabs (s : string) : bool := PyStr.startswith s "/".

End PosixPath.

(** ** Findings *)

(** The JSON values [Finding.to_dict] puts in its dictionary. *)
Inductive jval : Type :=
  | JStr (s : string)
  | JInt (z : Z)
  | JNull.

(** [class Finding].  [lineno] and [col] hold whatever the caller passes:
    an integer, or Python's [None] (here [None]) when a [SyntaxError]
    carries no position. *)
Module Finding.

Record t : Type := mk {
  path : string;
  lineno : option Z;
  col : option Z;
  level : string;
  code : string;
  msg : string
}.

Definition jpos (o : option Z) : jval :=
  match o with
  | Some z => JInt z
  | None => JNull
  end.

Definition to_dict (f : t) : list (string * jval) :=
  [ ("file", JStr (path f)); ("line", jpos (lineno f)); ("col", jpos (col f));
    ("level", JStr (level f)); ("code", JStr (code f));
    ("message", JStr (msg f)) ].

Definition fmt_pos (o : option Z) : string :=
  match o with
  | Some z => pretty z
  | None => "None"
  end.

(** [__str__] *)
Definition str (f : t) : string :=
  level f +:+ " [" +:+ code f +:+ "] " +:+ path f +:+ ":" +:+
  fmt_pos (lineno f) +:+ ":" +:+ fmt_pos (col f) +:+ " " +:+ msg f.

#[global] Instance eq_dec : EqDecision t.
Proof. solve_decision. Defined.

End Finding.

(** ** The syntax tree

    The node classes of Python's [ast] that the visitor looks at, each with
    the fields it reads; every other class is [NOther] with its child
    nodes in field order.  [lineno] and [col_offset] are recorded where the
    visitor reports them. *)

Record alias : Type := Alias {
  name : string;
  asname : option string
}.

(** The value of an [ast.Constant]. *)
Inductive constant : Type :=
  | CStr (s : string)
  | CBytes (s : string)
  | CNum (repr : string)
  | CBool (b : bool)
  | CNone
  | CEllipsis.

#[warnings="-register-all"]
Inductive node : Type :=
  | NModule (body : list node)
  | NImport (lineno col_offset : Z) (names : list alias)
  | NImportFrom (lineno col_offset : Z) (module : option string)
      (names : list alias) (level : Z)
  | NCall (lineno col_offset : Z) (func : node) (args : list node)
      (keywords : list node)
  | NKeyword (arg : option string) (value : node)
  | NName (id : string)
  | NAttribute (value : node) (attr : string)
  | NConstant (value : constant)
  | NOther (children : list node).

(** Induction over trees, with the hypothesis for every child of a list. *)
Section node_induction.
Variable P : node -> Prop.
Hypothesis HModule : forall body, Forall P body -> P (NModule body).
Hypothesis HImport : forall l c names, P (NImport l c names).
Hypothesis HImportFrom : forall l c m names lv, P (NImportFrom l c m names lv).
Hypothesis HCall : forall l c f args kws,
  P f -> Forall P args -> Forall P kws -> P (NCall l c f args kws).
Hypothesis HKeyword : forall a v, P v -> P (NKeyword a v).
Hypothesis HName : forall id, P (NName id).
Hypothesis HAttribute : forall v a, P v -> P (NAttribute v a).
Hypothesis HConstant : forall c, P (NConstant c).
Hypothesis HOther : forall ch, Forall P ch -> P (NOther ch).

Fixpoint node_tree_ind (n : node) : P n :=
  let all := fix all (l : list node) : Forall P l :=
    match l with
    | [] => @List.Forall_nil _ P
    | x :: r => @List.Forall_cons _ P x r (node_tree_ind x) (all r)
    end in
  match n with
  | NModule body => HModule body (all body)
  | NImport l c names => HImport l c names
  | NImportFrom l c m names lv => HImportFrom l c m names lv
  | NCall l c f args kws =>
      HCall l c f args kws (node_tree_ind f) (all args) (all kws)
  | NKeyword a v => HKeyword a v (node_tree_ind v)
  | NName id => HName id
  | NAttribute v a => HAttribute v a (node_tree_ind v)
  | NConstant c => HConstant c
  | NOther ch => HOther ch (all ch)
  end.
End node_induction.

(** ** Module-level constants *)

Definition DEFAULT_DENY_IMPORTS : list string :=
  ["socket"; "requests"; "subprocess"; "multiprocessing";
   "ftplib"; "paramiko"; "psutil"].

Definition DANGEROUS_CALLS : list (option string * string) :=
  [ (Some "os", "system"); (Some "os", "popen");
    (Some "builtins", "eval"); (Some "builtins", "exec") ].

(** ** [class LintVisitor] *)

Record LintVisitor : Type := mkVisitor {
  path : string;
  deny_imports : gset string;
  project_root : string;
  artifacts_root : string;
  findings : list Finding.t;
  alias_map : gmap string string
}.

(** [__init__] *)
Definition LintVisitor_init (p : string) (deny : gset string)
    (proj art : string) : LintVisitor :=
  {| path := p; deny_imports := deny;
     project_root := PosixPath.normpath proj;
     artifacts_root := PosixPath.normpath art;
     findings := []; alias_map := ∅ |}.

Definition append_finding (v : LintVisitor) (f : Finding.t) : LintVisitor :=
  {| path := path v; deny_imports := deny_imports v;
     project_root := project_root v; artifacts_root := artifacts_root v;
     findings := findings v ++ [f]; alias_map := alias_map v |}.

(** [self.alias_map[k] = m] *)
Definition bind_alias (v : LintVisitor) (k m : string) : LintVisitor :=
  {| path := path v; deny_imports := deny_imports v;
     project_root := project_root v; artifacts_root := artifacts_root v;
     findings := findings v; alias_map := <[k:=m]> (alias_map v) |}.

(** [error] and [warn], at a node whose position is [(lineno, col)]. *)
Definition error (v : LintVisitor) (lineno col : Z) (code msg : string)
    : LintVisitor :=
  append_finding v (Finding.mk (path v) (Some lineno) (Some col) "ERROR" code msg).

Definition warn (v : LintVisitor) (lineno col : Z) (code msg : string)
    : LintVisitor :=
  append_finding v (Finding.mk (path v) (Some lineno) (Some col) "WARN" code msg).

(** *** Imports *)

(** The body of the loop of [visit_Import] for one [alias]. *)
Definition visit_Import_alias (lineno col : Z) (v : LintVisitor) (a : alias)
    : LintVisitor :=
  let mod_ := PyStr.top_segment (name a) in
  let v1 := if bool_decide (mod_ ∈ deny_imports v)
            then error v lineno col "IMP001"
                   ("Disallowed import: '" +:+ mod_ +:+ "'")
            else v in
  match asname a with
  | Some s => if PyStr.truthy s then bind_alias v1 s (name a)
              else bind_alias v1 mod_ (name a)
  | None => bind_alias v1 mod_ (name a)
  end.

Definition visit_Import (lineno col : Z) (names : list alias) (v : LintVisitor)
    : LintVisitor :=
  fold_left (visit_Import_alias lineno col) names v.

Definition visit_ImportFrom (lineno col : Z) (module : option string)
    (names : list alias) (v : LintVisitor) : LintVisitor :=
  let v1 :=
    match module with
    | Some m =>
        if PyStr.truthy m then
          let mod_ := PyStr.top_segment m in
          if bool_decide (mod_ ∈ deny_imports v)
          then error v lineno col "IMP001"
                 ("Disallowed import: '" +:+ mod_ +:+ "'")
          else v
        else v
    | None => v
    end in
  fold_left
    (fun w a => bind_alias w (PyStr.or_else (asname a) (name a))
                             (PyStr.or_else module (name a)))
    names v1.

(** *** Helpers *)

(** [_resolve_base] is a recursion along the attribute chain, one Python
    frame per attribute.  This is the string it returns when it returns; a
    chain too long for the recursion limit makes it raise inside the
    traversal, which is the outcome [VisitRaises] of a file (see
    [loaded]). *)
Fixpoint _resolve_base (am : gmap string string) (n : node) : string :=
  match n with
  | NName id => default id (am !! id)
  | NAttribute value attr =>
      let base := _resolve_base am value in
      if PyStr.truthy base then base +:+ "." +:+ attr else attr
  | _ => ""
  end.

Definition _resolve_call_target (am : gmap string string) (func : node)
    : option string * string :=
  match func with
  | NName id =>
      if bool_decide (id ∈ ["eval"; "exec"; "open"]) then
        (if bool_decide (id ∈ ["eval"; "exec"]) then Some "builtins" else None,
         id)
      else if PyStr.truthy_opt (am !! id) then (am !! id, "")
      else (None, id)
  | NAttribute value attr => (Some (_resolve_base am value), attr)
  | _ => (None, "")
  end.

(** *** Calls *)

(** [isinstance(mode, str) and any(c in mode for c in ("w", "a", "x"))],
    where [mode] is [None] or the value of the second positional argument
    when that argument is a constant. *)
Definition write_mode (mode : option constant) : bool :=
  match mode with
  | Some (CStr m) =>
      PyStr.contains "w"%char m || PyStr.contains "a"%char m
      || PyStr.contains "x"%char m
  | _ => false
  end.

(** [f"{target_mod}"] *)
Definition fmt_mod (m : option string) : string := default "None" m.

(** [target_mod and target_mod.split(".")[0]]: the top-level segment of a
    module that is neither [None] nor empty. *)
Definition top_of (target_mod : option string) : option string :=
  match target_mod with
  | Some m => if PyStr.truthy m then Some (PyStr.top_segment m) else None
  | None => None
  end.

(** The write-path rule of [visit_Call]: the [if] that starts at
    [target_mod is None and target_func == "open"], as the literal path it
    reports, if any.  The positional arguments are read by position:
    [args[0]] is the path, [args[1]], when there is one, the mode. *)
Definition write_violation (proj art : string) (target : option string * string)
    (args : list node) : option string :=
  if bool_decide (target = (None, "open")) then
    match args with
    | [] => None
    | path_arg :: rest =>
        let mode :=
          match rest with
          | NConstant c :: _ => Some c
          | _ => None
          end in
        match path_arg with
        | NConstant (CStr path_val) =>
            if write_mode mode then
              let norm := PosixPath.normpath path_val in
              if negb (PyStr.startswith norm proj
                       || PyStr.startswith norm art
                       || PyStr.startswith norm "./"
                       || negb (PosixPath.isabs norm))
              then Some path_val
              else None
            else None
        | _ => None
        end
    end
  else None.

Definition check_write_path (lineno col : Z) (target : option string * string)
    (args : list node) (v : LintVisitor) : LintVisitor :=
  match write_violation (project_root v) (artifacts_root v) target args with
  | Some path_val =>
      error v lineno col "FS001"
        ("Write outside allowed dirs: '" +:+ path_val +:+ "'")
  | None => v
  end.

(** [visit_Call] up to, and without, its final [generic_visit]. *)
Definition visit_Call (lineno col : Z) (func : node) (args : list node)
    (v : LintVisitor) : LintVisitor :=
  let target := _resolve_call_target (alias_map v) func in
  let v1 :=
    if bool_decide (target ∈ DANGEROUS_CALLS)
    then error v lineno col "CAL001"
           ("Dangerous call: " +:+ fmt_mod target.1 +:+ "." +:+ target.2)
    else v in
  let v2 :=
    if bool_decide (top_of target.1 = Some "subprocess")
    then error v1 lineno col "CAL002"
           "Process spawning via 'subprocess' is disallowed"
    else v1 in
  let v3 :=
    match top_of target.1 with
    | Some t =>
        if bool_decide (t ∈ ["socket"; "requests"])
        then error v2 lineno col "CAL003"
               ("Network usage via '" +:+ fmt_mod target.1 +:+ "' is disallowed")
        else v2
    | None => v2
    end in
  check_write_path lineno col target args v3.

(** *** The traversal

    [NodeVisitor.visit] dispatches on the class of the node: the three
    [visit_] methods above for their classes, [generic_visit] for the rest,
    which visits the child nodes in field order.  The three methods end
    with [generic_visit] themselves; the [alias] children of an import have
    no child nodes and no method, so visiting them does nothing.  This is
    the visitor the traversal leaves when it returns; on a tree too deep
    for the recursion limit it raises instead (see [loaded]). *)
Fixpoint visit (n : node) (v : LintVisitor) : LintVisitor :=
  match n with
  | NImport l c names => visit_Import l c names v
  | NImportFrom l c m names _ => visit_ImportFrom l c m names v
  | NCall l c func args keywords =>
      let v1 := visit_Call l c func args v in
      let v2 := visit func v1 in
      let v3 := fold_left (fun w x => visit x w) args v2 in
      fold_left (fun w x => visit x w) keywords v3
  | NModule body => fold_left (fun w x => visit x w) body v
  | NOther children => fold_left (fun w x => visit x w) children v
  | NKeyword _ value => visit value v
  | NAttribute value _ => visit value v
  | NName _ => v
  | NConstant _ => v
  end.

(** ** [lint_file] *)

(** A [SyntaxError] as [lint_file] reads it: [str(e)] and the attributes
    [lineno] and [offset].  Every [SyntaxError] object has both attributes;
    they are [None] when the parser reports no position. *)
Record SyntaxError : Type := mkSyntaxError {
  se_str : string;
  se_lineno : option Z;
  se_offset : option Z
}.

(** What [lint_file] meets on a path.  In the [try] block, [open], [read]
    and [ast.parse] either raise an exception that is not a [SyntaxError]
    ([FileNotFoundError], [PermissionError], [UnicodeDecodeError],
    [ValueError], ...), or raise a [SyntaxError], or give a tree.  After
    the [try], [v.visit(tree)] walks the tree by recursion, as
    [_resolve_base] walks a callee: either the walk returns ([Parses]), and
    then its result is the one [visit] computes, or it raises
    ([VisitRaises]): a [RecursionError] when the tree is deeper than the
    interpreter's recursion limit allows.  Whether the limit is reached is
    a matter of the interpreter and of the tree, so it is part of what is
    given here, not computed. *)
Inductive loaded : Type :=
  | Raises (exc : string)
  | RaisesSyntaxError (e : SyntaxError)
  | Parses (tree : node)
  | VisitRaises (tree : node) (exc : string).

(** The files of a run: what loading each path does, and what the standard
    output does with a text.  [print_raises k s] is the exception, if any,
    that the [k]-th call [print(str(f))] of the run raises on the line [s]
    (a [UnicodeEncodeError] when the line holds a lone surrogate, an
    [OSError] of the stream); [print_json_raises doc] is the one raised by
    [print(json.dumps(doc, indent=2))]. *)
Record filesystem : Type := mkFilesystem {
  load : string -> loaded;
  print_raises : nat -> string -> option string;
  print_json_raises : list (list (string * jval)) -> option string
}.

Coercion load : filesystem >-> Funclass.

(** The result of a call: a value, or an exception that propagates. *)
Inductive result (A : Type) : Type :=
  | Returned (a : A)
  | Raised (exc : string).
Arguments Returned {A} a.
Arguments Raised {A} exc.

(** [getattr(e, "lineno", 0)]: the attribute exists on every [SyntaxError],
    so the default is not used and the value of the attribute is returned. *)
Definition getattr_lineno (e : SyntaxError) : option Z := se_lineno e.
Definition getattr_offset (e : SyntaxError) : option Z := se_offset e.

Definition lint_file (fs : filesystem) (p : string) (deny : gset string)
    (proj art : string) : result (list Finding.t) :=
  match fs p with
  | Raises exc => Raised exc
  | RaisesSyntaxError e =>
      Returned [Finding.mk p (getattr_lineno e) (getattr_offset e)
                  "ERROR" "SYN001" ("SyntaxError: " +:+ se_str e)]
  | Parses tree =>
      Returned (findings (visit tree (LintVisitor_init p deny proj art)))
  | VisitRaises _ exc => Raised exc
  end.

(** ** [main] *)

(** The parsed command line.  [ap.parse_args()] accepts it only with at
    least one path ([nargs="+"]); [main] below starts with that test. *)
Record Args : Type := mkArgs {
  paths : list string;
  arg_project_root : string;
  arg_artifacts_root : string;
  arg_deny_imports : list string;
  json : bool;
  fail_on_warn : bool
}.

(** What [main] printed on standard output. *)
Inductive printed : Type :=
  | JsonDump (doc : list (list (string * jval)))
  | Lines (lines : list string).

(** How the process ends: [sys.exit(code)] after the output; an exception
    nobody catches, raised before anything is printed; an exception of
    [print], after the lines [before] were printed; or the refusal of the
    command line by [ap.parse_args()]: [--paths] has [nargs="+"] and takes
    at least one value. *)
Inductive outcome : Type :=
  | Exit (out : printed) (code : Z)
  | Uncaught (exc : string)
  | PrintFails (before : list string) (exc : string)
  | UsageError.


(** The loop [for p in args.paths: findings.extend(lint_file(...))]. *)
Fixpoint collect (fs : filesystem) (deny : gset string) (proj art : string)
    (ps : list string) (acc : list Finding.t) : result (list Finding.t) :=
  match ps with
  | [] => Returned acc
  | p :: rest =>
      match lint_file fs p deny proj art with
      | Returned l => collect fs deny proj art rest (acc ++ l)
      | Raised exc => Raised exc
      end
  end.

Definition has_level (lv : string) (fl : list Finding.t) : bool :=
  existsb (fun f => bool_decide (Finding.level f = lv)) fl.

Definition render (as_json : bool) (fl : list Finding.t) : printed :=
  if as_json then JsonDump (map Finding.to_dict fl)
  else Lines (map Finding.str fl).

(** Lines 199 to 203 of the source. *)
Definition disposition (fow : bool) (fl : list Finding.t) : Z :=
  let has_error := has_level "ERROR" fl in
  let has_warn := has_level "WARN" fl in
  if has_error || (fow && has_warn) then 2 else 0.

(** The loop [for f in findings: print(str(f))]: the lines printed before
    the first call of [print] that raises, with its exception; [None] when
    every line is printed. *)
Fixpoint print_lines (fs : filesystem) (k : nat) (before lines : list string)
    : option (list string * string) :=
  match lines with
  | [] => None
  | s :: rest =>
      match print_raises fs k s with
      | Some exc => Some (before, exc)
      | None => print_lines fs (S k) (before ++ [s]) rest
      end
  end.

(** Lines 193 to 197 of the source: the exception that ends the printing,
    if any, with the lines printed before it. *)
Definition print_findings (fs : filesystem) (as_json : bool)
    (fl : list Finding.t) : option (list string * string) :=
  if as_json then
    match print_json_raises fs (map Finding.to_dict fl) with
    | Some exc => Some ([], exc)
    | None => None
    end
  else print_lines fs 0 [] (map Finding.str fl).

Definition main (args : Args) (fs : filesystem) : outcome :=
  match paths args with
  | [] => UsageError
  | _ :: _ =>
      let deny : gset string := list_to_set (arg_deny_imports args) in
      match collect fs deny (arg_project_root args) (arg_artifacts_root args)
              (paths args) [] with
      | Raised exc => Uncaught exc
      | Returned fl =>
          match print_findings fs (json args) fl with
          | Some (before, exc) => PrintFails before exc
          | None =>
              Exit (render (json args) fl)
                   (disposition (fail_on_warn args) fl)
          end
      end
  end.

(** ** The traversal as a sequence of visited nodes *)

(** The nodes of a tree that have a [visit_] method, in the order the
    traversal reaches them (pre-order, children in field order). *)
Fixpoint events (n : node) : list node :=
  match n with
  | NImport _ _ _ => [n]
  | NImportFrom _ _ _ _ _ => [n]
  | NCall _ _ func args keywords =>
      n :: events func ++ flat_map events args ++ flat_map events keywords
  | NModule body => flat_map events body
  | NOther children => flat_map events children
  | NKeyword _ value => events value
  | NAttribute value _ => events value
  | NName _ => []
  | NConstant _ => []
  end.

(** What the [visit_] method of one node does before its [generic_visit]. *)
Definition own_visit (v : LintVisitor) (n : node) : LintVisitor :=
  match n with
  | NImport l c names => visit_Import l c names v
  | NImportFrom l c m names _ => visit_ImportFrom l c m names v
  | NCall l c func args _ => visit_Call l c func args v
  | _ => v
  end.

(** The tree of a file analysed from a fresh visitor, as [lint_file] does. *)
Definition lint_tree (p : string) (deny : gset string) (proj art : string)
    (tree : node) : list Finding.t :=
  findings (visit tree (LintVisitor_init p deny proj art)).

(** Two visitors with the same configuration. *)
Definition same_config (v w : LintVisitor) : Prop :=
  path v = path w /\ deny_imports v = deny_imports w
  /\ project_root v = project_root w /\ artifacts_root v = artifacts_root w.

(** The finding has rule code [c]. *)
Definition has_code (c : string) (f : Finding.t) : bool :=
  bool_decide (Finding.code f = c).

(** The FS001 findings a node adds when it is visited. *)
Definition fs001_at (v0 : LintVisitor) (n : node) : list Finding.t :=
  List.filter (has_code "FS001") (findings (own_visit v0 n)).

(** The finding of the write-path rule for a call at [(l, c)] on the
    literal path [p]. *)
Definition fs001_finding (file : string) (l c : Z) (p : string) : Finding.t :=
  Finding.mk file (Some l) (Some c) "ERROR" "FS001"
    ("Write outside allowed dirs: '" +:+ p +:+ "'").

(** The finding of the import rule for module [m], and the test for it. *)
Definition imp001_finding (file : string) (l c : Z) (m : string) : Finding.t :=
  Finding.mk file (Some l) (Some c) "ERROR" "IMP001"
    ("Disallowed import: '" +:+ m +:+ "'").

Definition names_import (m : string) (f : Finding.t) : bool :=
  bool_decide (Finding.level f = "ERROR") && has_code "IMP001" f
  && bool_decide (Finding.msg f = "Disallowed import: '" +:+ m +:+ "'").

(** How many times a node imports a module whose top-level segment is [m]:
    once per [alias] of an [import] statement, once per [from] statement. *)
Definition import_occurrences_at (m : string) (n : node) : nat :=
  match n with
  | NImport _ _ names =>
      length (List.filter
                (fun a => bool_decide (PyStr.top_segment (name a) = m)) names)
  | NImportFrom _ _ (Some md) _ _ =>
      if PyStr.truthy md && bool_decide (PyStr.top_segment md = m)
      then 1%nat else 0%nat
  | _ => 0%nat
  end.

Definition import_occurrences (m : string) (tree : node) : nat :=
  list_sum (map (import_occurrences_at m) (events tree)).

(** The local name an import node binds, if it binds [a]. *)
Definition binds (a : string) (n : node) : bool :=
  match n with
  | NImport _ _ names =>
      existsb (fun al =>
                 bool_decide
                   (PyStr.or_else (asname al) (PyStr.top_segment (name al)) = a))
              names
  | NImportFrom _ _ _ names _ =>
      existsb (fun al =>
                 bool_decide (PyStr.or_else (asname al) (name al) = a))
              names
  | _ => false
  end.

(** The finding of the process-spawning rule for a call at [(l, c)]. *)
Definition cal002_finding (file : string) (l c : Z) : Finding.t :=
  Finding.mk file (Some l) (Some c) "ERROR" "CAL002"
    "Process spawning via 'subprocess' is disallowed".

(** ** Definitions for the proofs *)

(** The visitor [v] with [pre] put before its findings. *)
Definition prepend (pre : list Finding.t) (v : LintVisitor) : LintVisitor :=
  {| path := path v; deny_imports := deny_imports v;
     project_root := project_root v; artifacts_root := artifacts_root v;
     findings := pre ++ findings v; alias_map := alias_map v |}.

(** The visitor [v] with no finding yet. *)
Definition forget (v : LintVisitor) : LintVisitor :=
  {| path := path v; deny_imports := deny_imports v;
     project_root := project_root v; artifacts_root := artifacts_root v;
     findings := []; alias_map := alias_map v |}.

(** What visiting one node adds to the findings. *)
Definition emitted (v : LintVisitor) (n : node) : list Finding.t :=
  findings (own_visit (forget v) n).

(** The findings one turn of the loop of [visit_Import] adds. *)
Definition import_alias_findings (v : LintVisitor) (l c : Z) (a : alias)
    : list Finding.t :=
  if bool_decide (PyStr.top_segment (name a) ∈ deny_imports v)
  then [imp001_finding (path v) l c (PyStr.top_segment (name a))]
  else [].

(** The findings [visit_ImportFrom] adds. *)
Definition import_from_findings (v : LintVisitor) (l c : Z)
    (m : option string) : list Finding.t :=
  match m with
  | Some md =>
      if PyStr.truthy md && bool_decide (PyStr.top_segment md ∈ deny_imports v)
      then [imp001_finding (path v) l c (PyStr.top_segment md)]
      else []
  | None => []
  end.

(** The findings [visit_Call] adds, rule by rule. *)
Definition call_findings (v : LintVisitor) (l c : Z) (f : node)
    (args : list node) : list Finding.t :=
  let t := _resolve_call_target (alias_map v) f in
  (if bool_decide (t ∈ DANGEROUS_CALLS)
   then [Finding.mk (path v) (Some l) (Some c) "ERROR" "CAL001"
           ("Dangerous call: " +:+ fmt_mod t.1 +:+ "." +:+ t.2)]
   else [])
  ++ (if bool_decide (top_of t.1 = Some "subprocess")
      then [cal002_finding (path v) l c] else [])
  ++ (match top_of t.1 with
      | Some tm =>
          if bool_decide (tm ∈ ["socket"; "requests"])
          then [Finding.mk (path v) (Some l) (Some c) "ERROR" "CAL003"
                  ("Network usage via '" +:+ fmt_mod t.1 +:+ "' is disallowed")]
          else []
      | None => []
      end)
  ++ (match write_violation (project_root v) (artifacts_root v) t args with
      | Some p => [fs001_finding (path v) l c p]
      | None => []
      end).

(** The positional path and mode of a call when they are string literals. *)
Definition path_literal (args : list node) : option string :=
  match args with
  | NConstant (CStr s) :: _ => Some s
  | _ => None
  end.

Definition mode_literal (args : list node) : option string :=
  match args with
  | _ :: NConstant (CStr s) :: _ => Some s
  | _ => None
  end.

(** A mode string with one of the characters [w], [a], [x]. *)
Definition write_enabling (m : string) : bool :=
  PyStr.contains "w"%char m || PyStr.contains "a"%char m
  || PyStr.contains "x"%char m.

(** A finding of level ERROR. *)
Definition is_error (f : Finding.t) : Prop := Finding.level f = "ERROR".

(** The findings of one file of the batch; none if loading it raises. *)
Definition file_findings (fs : filesystem) (deny : gset string)
    (proj art : string) (p : string) : list Finding.t :=
  match lint_file fs p deny proj art with
  | Returned l => l
  | Raised _ => []
  end.

(** Every path of the list is analysed: loading it raises no exception
    other than [SyntaxError], and the traversal of its tree returns. *)
Definition all_analysed (fs : filesystem) (ps : list string) : Prop :=
  forall p, In p ps ->
    (forall exc, fs p <> Raises exc)
    /\ (forall tree exc, fs p <> VisitRaises tree exc).



(** A standard output that takes every text. *)
Definition stdout_ok_lines : nat -> string -> option string := fun _ _ => None.

Definition stdout_ok_json : list (list (string * jval)) -> option string :=
  fun _ => None.

(** The command line [args] with [--fail-on-warn] set to [b]. *)
Definition with_fail_on_warn (b : bool) (args : Args) : Args :=
  {| paths := paths args; arg_project_root := arg_project_root args;
     arg_artifacts_root := arg_artifacts_root args;
     arg_deny_imports := arg_deny_imports args; json := json args;
     fail_on_warn := b |}.

(** A run of [main] collects [fl]: the loop over the paths ends normally
    with these findings. *)
Definition collects (args : Args) (fs : filesystem) (fl : list Finding.t)
    : Prop :=
  collect fs (list_to_set (arg_deny_imports args)) (arg_project_root args)
    (arg_artifacts_root args) (paths args) [] = Returned fl.

(** ** Concrete runs *)

(** The default deny set, the default roots and a list of paths. *)
Definition default_deny : gset string := list_to_set DEFAULT_DENY_IMPORTS.

(** [open("/etc/passwd", "w")] *)
Definition call_open_passwd : node :=
  NCall 1 0 (NName "open")
    [NConstant (CStr "/etc/passwd"); NConstant (CStr "w")] [].

Definition tree_open_passwd : node := NModule [NOther [call_open_passwd]].

(** [import socket], then [from socket import gethostname]. *)
Definition tree_import_twice : node :=
  NModule [NImport 1 0 [Alias "socket" None];
           NImportFrom 2 0 (Some "socket") [Alias "gethostname" None] 0].

(** [import subprocess as sp], then [sp.Popen("ls")]. *)
Definition call_sp_Popen (l : Z) : node :=
  NCall l 0 (NAttribute (NName "sp") "Popen") [NConstant (CStr "ls")] [].

Definition tree_sp_Popen : node :=
  NModule [NImport 1 0 [Alias "subprocess" (Some "sp")];
           NOther [call_sp_Popen 2]].

(** [import subprocess as sp], [import os as sp], then [sp.Popen("ls")]. *)
Definition tree_sp_rebound : node :=
  NModule [NImport 1 0 [Alias "subprocess" (Some "sp")];
           NImport 2 0 [Alias "os" (Some "sp")];
           NOther [call_sp_Popen 3]].

(** [import socket] *)
Definition tree_import_socket : node :=
  NModule [NImport 1 0 [Alias "socket" None]].

(** Every path holds the same tree. *)
Definition every_file (tree : node) : filesystem :=
  {| load := fun _ => Parses tree;
     print_raises := stdout_ok_lines; print_json_raises := stdout_ok_json |}.

(** [a.py] cannot be opened; [b.py] holds [import socket]. *)
Definition fs_missing_a : filesystem :=
  {| load := fun p => if bool_decide (p = "b.py")
                      then Parses tree_import_socket
                      else Raises "FileNotFoundError";
     print_raises := stdout_ok_lines; print_json_raises := stdout_ok_json |}.

(** [bad.py] makes [ast.parse] raise a [SyntaxError] without a position, as
    Python 3.12 does for a source that contains a null character. *)
Definition null_bytes_error : SyntaxError :=
  {| se_str := "source code string cannot contain null bytes";
     se_lineno := None; se_offset := None |}.

Definition fs_null_bytes : filesystem :=
  {| load := fun _ => RaisesSyntaxError null_bytes_error;
     print_raises := stdout_ok_lines; print_json_raises := stdout_ok_json |}.

Definition args_for (ps : list string) : Args :=
  {| paths := ps; arg_project_root := "/project";
     arg_artifacts_root := "/artifacts";
     arg_deny_imports := DEFAULT_DENY_IMPORTS; json := false;
     fail_on_warn := false |}.

(** ** Definitions for further properties of the rules *)

(** The expression [root.a1.a2...an]. *)
Definition attr_chain (root : node) (attrs : list string) : node :=
  fold_left NAttribute attrs root.

(** An expression that is neither a name nor an attribute access: a call, a
    subscript, a constant, ... *)
Definition opaque (n : node) : bool :=
  match n with
  | NName _ => false
  | NAttribute _ _ => false
  | _ => true
  end.

(** The tree holds an import statement or a call somewhere. *)
Fixpoint has_rule_node (n : node) : bool :=
  match n with
  | NImport _ _ _ => true
  | NImportFrom _ _ _ _ _ => true
  | NCall _ _ _ _ _ => true
  | NModule body => existsb has_rule_node body
  | NOther children => existsb has_rule_node children
  | NKeyword _ value => has_rule_node value
  | NAttribute value _ => has_rule_node value
  | NName _ => false
  | NConstant _ => false
  end.

(** A finding of another rule than the import rule. *)
Definition not_import_finding (f : Finding.t) : bool :=
  negb (has_code "IMP001" f).

(** Two visitors that differ at most in their deny set and findings. *)
Definition agree (v w : LintVisitor) : Prop :=
  path v = path w /\ project_root v = project_root w
  /\ artifacts_root v = artifacts_root w /\ alias_map v = alias_map w.


(** The finding of the dangerous-call rule for [m.f] at [(l, c)]. *)
Definition cal001_finding (file : string) (l c : Z) (m f : string) : Finding.t :=
  Finding.mk file (Some l) (Some c) "ERROR" "CAL001"
    ("Dangerous call: " +:+ m +:+ "." +:+ f).

(** A fresh visitor with the default configuration. *)
Definition fresh_visitor : LintVisitor :=
  LintVisitor_init "a.py" default_deny "/project" "/artifacts".

(** [x = 1], a statement with no import and no call. *)
Definition tree_assignment : node :=
  NModule [NOther [NName "x"; NConstant (CNum "1")]].

(** [n] occurs in a tree: it is the tree itself or occurs in one of its
    child nodes. *)
Inductive occurs (n : node) : node -> Prop :=
  | occurs_here : occurs n n
  | occurs_module body m : In m body -> occurs n m -> occurs n (NModule body)
  | occurs_other children m :
      In m children -> occurs n m -> occurs n (NOther children)
  | occurs_func l c f args kws : occurs n f -> occurs n (NCall l c f args kws)
  | occurs_arg l c f args kws m :
      In m args -> occurs n m -> occurs n (NCall l c f args kws)
  | occurs_keyword l c f args kws m :
      In m kws -> occurs n m -> occurs n (NCall l c f args kws)
  | occurs_keyword_value a value : occurs n value -> occurs n (NKeyword a value)
  | occurs_attribute value a : occurs n value -> occurs n (NAttribute value a).

(** The nodes with a [visit_] method. *)
Definition is_rule_node (n : node) : bool :=
  match n with
  | NImport _ _ _ => true
  | NImportFrom _ _ _ _ _ => true
  | NCall _ _ _ _ _ => true
  | _ => false
  end.

(** The finding of the network rule for module [m] at [(l, c)]. *)
Definition cal003_finding (file : string) (l c : Z) (m : string) : Finding.t :=
  Finding.mk file (Some l) (Some c) "ERROR" "CAL003"
    ("Network usage via '" +:+ m +:+ "' is disallowed").

(** [def f(): import socket] and
    [print(open("/etc/passwd", "w").write("x"))]: an import inside a
    function body, a call of [open] inside the callee of a call that is an
    argument of a call. *)
Definition tree_nested : node :=
  NModule
    [NOther [NOther []; NImport 2 4 [Alias "socket" None]];
     NOther [NCall 3 0 (NName "print")
               [NCall 3 6
                  (NAttribute
                     (NCall 3 6 (NName "open")
                        [NConstant (CStr "/etc/passwd"); NConstant (CStr "w")] [])
                     "write")
                  [NConstant (CStr "x")] []] []]].


(** The visitor after [import os as o], after [from os import system],
    after [from subprocess import run] and after
    [import subprocess as sp]. *)
Definition after_import_os_as_o : LintVisitor :=
  own_visit fresh_visitor (NImport 1 0 [Alias "os" (Some "o")]).

Definition after_from_os_import_system : LintVisitor :=
  own_visit fresh_visitor (NImportFrom 1 0 (Some "os") [Alias "system" None] 0).

Definition after_from_subprocess_import_run : LintVisitor :=
  own_visit fresh_visitor
    (NImportFrom 1 0 (Some "subprocess") [Alias "run" None] 0).

Definition after_import_subprocess_as_sp : LintVisitor :=
  own_visit fresh_visitor (NImport 1 0 [Alias "subprocess" (Some "sp")]).

(** [getattr(os, "system")], used as a callee. *)
Definition callee_getattr : node :=
  NCall 2 0 (NName "getattr") [NName "os"; NConstant (CStr "system")] [].

(** A file that parses and is too deep for the traversal: it imports
    [socket], binds [sp] to [subprocess] and calls [sp.Popen("ls")], calls
    [open("/etc/passwd", "w")], and holds [x = a.b.b...b] with 600
    attributes. *)
Definition tree_deep : node :=
  NModule [NImport 1 0 [Alias "socket" None];
           NImport 2 0 [Alias "subprocess" (Some "sp")];
           NOther [call_sp_Popen 3];
           NOther [call_open_passwd];
           NOther [NName "x"; attr_chain (NName "a") (List.repeat "b" 600)]].

(** Every path parses to [tree], and the traversal raises [exc]. *)
Definition fs_visit_raises (tree : node) (exc : string) : filesystem :=
  {| load := fun _ => VisitRaises tree exc;
     print_raises := stdout_ok_lines; print_json_raises := stdout_ok_json |}.


(** [open("/projectX/evil", "w")] *)
Definition tree_open_projectX : node :=
  NModule [NOther [NCall 1 0 (NName "open")
                     [NConstant (CStr "/projectX/evil"); NConstant (CStr "w")]
                     []]].

(** [import subprocess as sp], then [sp.a.b.Popen("ls")]. *)
Definition tree_sp_chain : node :=
  NModule [NImport 1 0 [Alias "subprocess" (Some "sp")];
           NOther [NCall 2 0
                     (NAttribute (attr_chain (NName "sp") ["a"; "b"]) "Popen")
                     [NConstant (CStr "ls")] []]].

(** * Properties *)

(** ** Facts about the traversal *)

Lemma visit_children (l : list node) :
  Forall (fun n => forall v, visit n v = fold_left own_visit (events n) v) l ->
  forall v, fold_left (fun w x => visit x w) l v
            = fold_left own_visit (flat_map events l) v.
Proof.
  induction 1 as [|n l Hn _ IH]; intros v; simpl; [reflexivity|].
  rewrite fold_left_app. rewrite <- Hn. apply IH.
Qed.

Lemma visit_events (n : node) (v : LintVisitor) :
  visit n v = fold_left own_visit (events n) v.
Proof.
  revert v. induction n as
    [body IH | l c names | l c m names lv | l c f args kws IHf IHa IHk
    | a x IHx | id | x a IHx | k | ch IH] using node_tree_ind;
    intros v; simpl; try reflexivity; try apply IHx;
    try (apply visit_children; assumption).
  rewrite !fold_left_app. rewrite <- IHf.
  rewrite (visit_children args IHa). rewrite (visit_children kws IHk).
  reflexivity.
Qed.

(** *** Findings are only appended *)

Lemma prepend_forget (v : LintVisitor) : prepend (findings v) (forget v) = v.
Proof. destruct v; unfold prepend, forget; simpl. by rewrite app_nil_r. Qed.

Lemma error_prepend pre v l c code msg :
  error (prepend pre v) l c code msg = prepend pre (error v l c code msg).
Proof. unfold error, append_finding, prepend; simpl. by rewrite app_assoc. Qed.

Lemma bind_alias_prepend pre v k m :
  bind_alias (prepend pre v) k m = prepend pre (bind_alias v k m).
Proof. reflexivity. Qed.

Ltac push_prepend :=
  repeat first [ rewrite error_prepend | rewrite bind_alias_prepend ].

Lemma visit_Import_alias_prepend pre l c v a :
  visit_Import_alias l c (prepend pre v) a
  = prepend pre (visit_Import_alias l c v a).
Proof.
  unfold visit_Import_alias; simpl.
  destruct (bool_decide _); destruct (asname a) as [s|];
    try destruct (PyStr.truthy s); push_prepend; reflexivity.
Qed.

Lemma fold_prepend {A} (f : LintVisitor -> A -> LintVisitor) pre :
  (forall v a, f (prepend pre v) a = prepend pre (f v a)) ->
  forall l v, fold_left f l (prepend pre v) = prepend pre (fold_left f l v).
Proof.
  intros Hf l. induction l as [|a l IH]; intros v; simpl; [reflexivity|].
  rewrite Hf. apply IH.
Qed.

Lemma visit_ImportFrom_prepend pre l c m names v :
  visit_ImportFrom l c m names (prepend pre v)
  = prepend pre (visit_ImportFrom l c m names v).
Proof.
  unfold visit_ImportFrom; simpl.
  destruct m as [m|]; [destruct (PyStr.truthy m); [destruct (bool_decide _)|]|];
    push_prepend; apply fold_prepend; intros; reflexivity.
Qed.

Lemma check_write_path_prepend pre l c t args v :
  check_write_path l c t args (prepend pre v)
  = prepend pre (check_write_path l c t args v).
Proof.
  unfold check_write_path; simpl.
  destruct (write_violation _ _ _ _); push_prepend; reflexivity.
Qed.

Lemma visit_Call_prepend pre l c f args v :
  visit_Call l c f args (prepend pre v) = prepend pre (visit_Call l c f args v).
Proof.
  unfold visit_Call; simpl.
  set (t := _resolve_call_target (alias_map v) f).
  destruct (bool_decide (t ∈ DANGEROUS_CALLS));
    destruct (bool_decide (top_of t.1 = Some "subprocess"));
    destruct (top_of t.1) as [tm|];
    try destruct (bool_decide (tm ∈ ["socket"; "requests"]));
    push_prepend; apply check_write_path_prepend.
Qed.

Lemma own_visit_prepend pre v n :
  own_visit (prepend pre v) n = prepend pre (own_visit v n).
Proof.
  destruct n; simpl; try reflexivity.
  - apply fold_prepend. intros. apply visit_Import_alias_prepend.
  - apply visit_ImportFrom_prepend.
  - apply visit_Call_prepend.
Qed.

Lemma own_visit_findings v n :
  findings (own_visit v n) = findings v ++ emitted v n.
Proof.
  rewrite <- (prepend_forget v) at 1. rewrite own_visit_prepend. reflexivity.
Qed.

Lemma own_visit_alias_map v n :
  alias_map (own_visit v n) = alias_map (own_visit (forget v) n).
Proof.
  rewrite <- (prepend_forget v) at 1. rewrite own_visit_prepend. reflexivity.
Qed.

(** *** The configuration never changes *)

Lemma same_config_refl v : same_config v v.
Proof. repeat split. Qed.

Lemma same_config_trans u v w :
  same_config u v -> same_config v w -> same_config u w.
Proof. unfold same_config; intros (?&?&?&?) (?&?&?&?); repeat split; congruence. Qed.

Lemma same_config_forget v : same_config (forget v) v.
Proof. repeat split. Qed.

Lemma fold_same_config {A} (f : LintVisitor -> A -> LintVisitor) :
  (forall v a, same_config (f v a) v) ->
  forall l v, same_config (fold_left f l v) v.
Proof.
  intros Hf l. induction l as [|a l IH]; intros v; simpl.
  - apply same_config_refl.
  - eapply same_config_trans; [apply IH | apply Hf].
Qed.

Lemma visit_Import_alias_config l c v a :
  same_config (visit_Import_alias l c v a) v.
Proof.
  unfold visit_Import_alias.
  destruct (bool_decide _); destruct (asname a) as [s|];
    try destruct (PyStr.truthy s); repeat split.
Qed.

Lemma own_visit_config v n : same_config (own_visit v n) v.
Proof.
  destruct n as [|l c names|l c md names lv|l c func args kws| | | | |];
    simpl; try apply same_config_refl.
  - apply fold_same_config. intros. apply visit_Import_alias_config.
  - unfold visit_ImportFrom.
    eapply same_config_trans; [apply fold_same_config; intros; repeat split|].
    destruct md as [m|]; [destruct (PyStr.truthy m); [destruct (bool_decide _)|]|];
      repeat split.
  - unfold visit_Call, check_write_path.
    set (t := _resolve_call_target (alias_map v) func).
    destruct (bool_decide (t ∈ DANGEROUS_CALLS));
      destruct (bool_decide (top_of t.1 = Some "subprocess"));
      destruct (top_of t.1) as [tm|];
      try destruct (bool_decide (tm ∈ ["socket"; "requests"]));
      simpl; destruct (write_violation _ _ _ _); repeat split.
Qed.

Lemma events_config evs v : same_config (fold_left own_visit evs v) v.
Proof. apply fold_same_config. intros. apply own_visit_config. Qed.

(** *** What each visit method adds *)

Lemma visit_Import_alias_findings l c v a :
  findings (visit_Import_alias l c v a)
  = findings v ++ import_alias_findings v l c a.
Proof.
  unfold visit_Import_alias, import_alias_findings.
  destruct (bool_decide _); destruct (asname a) as [s|];
    try destruct (PyStr.truthy s); simpl; by rewrite ?app_nil_r.
Qed.

Lemma visit_Import_findings l c names v :
  findings (visit_Import l c names v)
  = findings v ++ flat_map (import_alias_findings v l c) names.
Proof.
  unfold visit_Import. revert v.
  induction names as [|a names IH]; intros v; simpl.
  - by rewrite app_nil_r.
  - rewrite IH, visit_Import_alias_findings, <- app_assoc. f_equal. f_equal.
    destruct (visit_Import_alias_config l c v a) as (Hp & Hd & _).
    apply flat_map_ext. intros b. unfold import_alias_findings.
    by rewrite Hp, Hd.
Qed.

Lemma fold_bind_findings {A} (k m : A -> string) (l : list A) v :
  findings (fold_left (fun w a => bind_alias w (k a) (m a)) l v) = findings v.
Proof. revert v. induction l as [|a l IH]; intros v; simpl; [done|]. by rewrite IH. Qed.

Lemma visit_ImportFrom_findings l c m names v :
  findings (visit_ImportFrom l c m names v)
  = findings v ++ import_from_findings v l c m.
Proof.
  unfold visit_ImportFrom, import_from_findings. rewrite fold_bind_findings.
  destruct m as [md|]; [destruct (PyStr.truthy md); [destruct (bool_decide _)|]|];
    simpl; by rewrite ?app_nil_r.
Qed.

Lemma visit_Call_findings l c f args v :
  findings (visit_Call l c f args v) = findings v ++ call_findings v l c f args.
Proof.
  unfold visit_Call, call_findings, check_write_path, cal002_finding,
    fs001_finding.
  set (t := _resolve_call_target (alias_map v) f).
  destruct (bool_decide (t ∈ DANGEROUS_CALLS));
    destruct (bool_decide (top_of t.1 = Some "subprocess"));
    destruct (top_of t.1) as [tm|];
    try destruct (bool_decide (tm ∈ ["socket"; "requests"]));
    simpl; destruct (write_violation _ _ _ _); simpl;
    rewrite <- ?app_assoc; simpl; by rewrite ?app_nil_r.
Qed.

Lemma emitted_Import v l c names :
  emitted v (NImport l c names) = flat_map (import_alias_findings v l c) names.
Proof. unfold emitted; simpl. by rewrite visit_Import_findings. Qed.

Lemma emitted_ImportFrom v l c m names lv :
  emitted v (NImportFrom l c m names lv) = import_from_findings v l c m.
Proof. unfold emitted; simpl. by rewrite visit_ImportFrom_findings. Qed.

Lemma emitted_Call v l c f args kws :
  emitted v (NCall l c f args kws) = call_findings v l c f args.
Proof. unfold emitted; simpl. by rewrite visit_Call_findings. Qed.

(** *** Findings of a sequence of visits *)

Lemma events_findings_prefix evs v :
  exists rest, findings (fold_left own_visit evs v) = findings v ++ rest.
Proof.
  revert v. induction evs as [|n evs IH]; intros v; simpl.
  - exists []. by rewrite app_nil_r.
  - destruct (IH (own_visit v n)) as [rest ->].
    rewrite own_visit_findings, <- app_assoc. eauto.
Qed.

Lemma filter_events (P : Finding.t -> bool) (g : node -> list Finding.t) v0 :
  (forall v n, same_config v v0 -> List.filter P (emitted v n) = g n) ->
  forall evs v, same_config v v0 ->
    List.filter P (findings (fold_left own_visit evs v))
    = List.filter P (findings v) ++ flat_map g evs.
Proof.
  intros Hg evs. induction evs as [|n evs IH]; intros v Hv; simpl.
  - by rewrite app_nil_r.
  - rewrite IH by (eapply same_config_trans; [apply own_visit_config|done]).
    rewrite own_visit_findings, List.filter_app, Hg by done.
    by rewrite <- app_assoc.
Qed.

Lemma filter_other_code (c d : string) (l : list Finding.t) :
  c <> d -> Forall (fun f => Finding.code f = c) l ->
  List.filter (has_code d) l = [].
Proof.
  intros Hcd. induction 1 as [|f l Hf _ IH]; simpl; [done|].
  unfold has_code at 1. rewrite bool_decide_eq_false_2 by congruence. done.
Qed.

Lemma import_alias_findings_code v l c names :
  Forall (fun f => Finding.code f = "IMP001")
         (flat_map (import_alias_findings v l c) names).
Proof.
  induction names as [|a names IH]; simpl; [constructor|].
  apply Forall_app. split; [|done].
  unfold import_alias_findings. destruct (bool_decide _); repeat constructor.
Qed.

Lemma import_from_findings_code v l c m :
  Forall (fun f => Finding.code f = "IMP001") (import_from_findings v l c m).
Proof.
  unfold import_from_findings.
  destruct m as [md|]; [destruct (_ && _)|]; repeat constructor.
Qed.

(** *** The write-path rule *)

(** Only the bare name [open] resolves to the builtin file-open target,
    whatever the alias table holds. *)
Lemma resolve_open_cases (am : gmap string string) (f : node) :
  (f = NName "open" /\ _resolve_call_target am f = (None, "open"))
  \/ (f <> NName "open" /\ _resolve_call_target am f <> (None, "open")).
Proof.
  destruct f as [| | | | |id|x a| |]; try (right; split; [discriminate|simpl; congruence]).
  simpl. destruct (decide (id = "open")) as [->|Hne].
  - left. split; reflexivity.
  - right. split; [congruence|].
    destruct (bool_decide (id ∈ ["eval"; "exec"; "open"])) eqn:E1.
    + destruct (bool_decide (id ∈ ["eval"; "exec"])); congruence.
    + destruct (PyStr.truthy_opt (am !! id)); congruence.
Qed.

Lemma write_violation_resolve proj art am f args :
  write_violation proj art (_resolve_call_target am f) args
  = write_violation proj art (_resolve_call_target ∅ f) args.
Proof.
  unfold write_violation.
  destruct (resolve_open_cases am f) as [[H0 ->]|[H0 H1]];
    destruct (resolve_open_cases ∅ f) as [[H2 ->]|[H2 H3]];
    try reflexivity; try congruence.
  by rewrite !bool_decide_eq_false_2.
Qed.

Lemma call_findings_fs001 v l c f args :
  List.filter (has_code "FS001") (call_findings v l c f args)
  = match write_violation (project_root v) (artifacts_root v)
            (_resolve_call_target (alias_map v) f) args with
    | Some p => [fs001_finding (path v) l c p]
    | None => []
    end.
Proof.
  unfold call_findings.
  set (t := _resolve_call_target (alias_map v) f).
  destruct (bool_decide (t ∈ DANGEROUS_CALLS));
    destruct (bool_decide (top_of t.1 = Some "subprocess"));
    destruct (top_of t.1) as [tm|];
    try destruct (bool_decide (tm ∈ ["socket"; "requests"]));
    destruct (write_violation _ _ _ _); reflexivity.
Qed.

Lemma emitted_fs001 v w n :
  same_config v w ->
  List.filter (has_code "FS001") (emitted v n)
  = List.filter (has_code "FS001") (emitted w n).
Proof.
  intros (Hp & _ & Hr & Ha).
  destruct n as [|l c names|l c md names lv|l c func args kws| | | | |];
    try reflexivity.
  - rewrite !emitted_Import.
    rewrite !(filter_other_code "IMP001" "FS001");
      auto using import_alias_findings_code.
  - rewrite !emitted_ImportFrom.
    rewrite !(filter_other_code "IMP001" "FS001");
      auto using import_from_findings_code.
  - rewrite !emitted_Call, !call_findings_fs001.
    rewrite (write_violation_resolve _ _ (alias_map v)).
    rewrite (write_violation_resolve _ _ (alias_map w)).
    by rewrite Hp, Hr, Ha.
Qed.

(** The FS001 findings of a file are those its visited nodes add, each on
    its own, in traversal order. *)
Lemma lint_tree_fs001 file deny proj art tree :
  List.filter (has_code "FS001") (lint_tree file deny proj art tree)
  = flat_map (fs001_at (LintVisitor_init file deny proj art)) (events tree).
Proof.
  unfold lint_tree. rewrite visit_events.
  rewrite (filter_events _ (fs001_at (LintVisitor_init file deny proj art))
             (LintVisitor_init file deny proj art)).
  - reflexivity.
  - intros v n Hv. unfold fs001_at. rewrite own_visit_findings. simpl.
    by apply emitted_fs001.
  - apply same_config_refl.
Qed.

(** A visited call adds at most the finding of [write_violation]. *)
Lemma own_visit_call_fs001 v l c f args kws :
  List.filter (has_code "FS001") (findings (own_visit v (NCall l c f args kws)))
  = List.filter (has_code "FS001") (findings v)
    ++ match write_violation (project_root v) (artifacts_root v)
               (_resolve_call_target ∅ f) args with
       | Some p => [fs001_finding (path v) l c p]
       | None => []
       end.
Proof.
  rewrite own_visit_findings, List.filter_app, emitted_Call, call_findings_fs001.
  by rewrite write_violation_resolve.
Qed.

(** ** The write-path rule on a call of [open] *)

Lemma write_violation_open_literals proj art p m rest :
  write_violation proj art (None, "open")
    (NConstant (CStr p) :: NConstant (CStr m) :: rest)
  = if write_enabling m then
      if negb (PyStr.startswith (PosixPath.normpath p) proj
               || PyStr.startswith (PosixPath.normpath p) art
               || PyStr.startswith (PosixPath.normpath p) "./"
               || negb (PosixPath.isabs (PosixPath.normpath p)))
      then Some p else None
    else None.
Proof. reflexivity. Qed.

(** C3 (amended): in a file that parses and is traversed to the end
    ([Parses]: the visit raises nothing), a call [open(p, m, ...)] whose
    mode [m] is a
    string literal with one of [w], [a], [x] and whose path [p] is a string
    literal with an absolute normal form that starts neither with the
    (normalised) project root, nor with the (normalised) artifacts root,
    nor with [./], gets exactly one FS001 finding: the FS001 findings of the
    file are those of the nodes visited before the call, then the one
    ERROR finding at the call that names [p], then those of the nodes
    visited after it. *)
Theorem C3_open_outside_roots_one_FS001
    (fs : filesystem) (file : string) (deny : gset string) (proj art : string)
    (tree : node) (pre post : list node) (l c : Z) (p m : string)
    (rest kws : list node) :
  fs file = Parses tree ->
  events tree
  = pre ++ NCall l c (NName "open")
             (NConstant (CStr p) :: NConstant (CStr m) :: rest) kws :: post ->
  write_enabling m = true ->
  PosixPath.isabs (PosixPath.normpath p) = true ->
  PyStr.startswith (PosixPath.normpath p) (PosixPath.normpath proj) = false ->
  PyStr.startswith (PosixPath.normpath p) (PosixPath.normpath art) = false ->
  PyStr.startswith (PosixPath.normpath p) "./" = false ->
  exists fl,
    lint_file fs file deny proj art = Returned fl
    /\ List.filter (has_code "FS001") fl
       = flat_map (fs001_at (LintVisitor_init file deny proj art)) pre
         ++ [Finding.mk file (Some l) (Some c) "ERROR" "FS001"
               ("Write outside allowed dirs: '" +:+ p +:+ "'")]
         ++ flat_map (fs001_at (LintVisitor_init file deny proj art)) post.
Proof.
  intros Hfs Hev Hm Habs Hproj Hart Hdot.
  exists (lint_tree file deny proj art tree). split.
  - unfold lint_file. by rewrite Hfs.
  - rewrite lint_tree_fs001, Hev, flat_map_app. simpl. f_equal. f_equal.
    unfold fs001_at at 1. rewrite own_visit_call_fs001. simpl.
    rewrite write_violation_open_literals, Hm, Habs, Hproj, Hart, Hdot.
    reflexivity.
Qed.

(** C7: a call of [open] whose first positional argument is not a string
    literal, or whose second positional argument is not a string literal,
    adds no FS001 finding when it is visited. *)
Theorem C7_nonliteral_path_or_mode_no_FS001
    (v : LintVisitor) (l c : Z) (args kws : list node) :
  path_literal args = None \/ mode_literal args = None ->
  List.filter (has_code "FS001")
    (findings (own_visit v (NCall l c (NName "open") args kws)))
  = List.filter (has_code "FS001") (findings v).
Proof.
  intros H. rewrite own_visit_call_fs001.
  replace (write_violation _ _ _ args) with (@None string);
    [by rewrite app_nil_r|].
  simpl. unfold write_violation. simpl.
  destruct args as [|a0 rest]; [reflexivity|].
  destruct a0 as [| | | | | | |k|]; try reflexivity.
  destruct k as [s| | | | |]; try reflexivity.
  destruct H as [H|H]; [discriminate|].
  destruct rest as [|a1 rest']; [reflexivity|].
  destruct a1 as [| | | | | | |k|]; try reflexivity.
  destruct k as [s'| | | | |]; try reflexivity. discriminate.
Qed.

(** C8: a call of [open] with a write-enabling literal mode and a literal
    path whose normal form is not absolute adds no FS001 finding, also when
    that normal form starts with [..] segments. *)
Theorem C8_relative_literal_path_no_FS001
    (v : LintVisitor) (l c : Z) (p m : string) (rest kws : list node) :
  write_enabling m = true ->
  PosixPath.isabs (PosixPath.normpath p) = false ->
  List.filter (has_code "FS001")
    (findings (own_visit v (NCall l c (NName "open")
                 (NConstant (CStr p) :: NConstant (CStr m) :: rest) kws)))
  = List.filter (has_code "FS001") (findings v).
Proof.
  intros Hm Hrel. rewrite own_visit_call_fs001. simpl.
  rewrite write_violation_open_literals, Hm, Hrel.
  rewrite !orb_true_r. simpl. by rewrite app_nil_r.
Qed.

(** C10: a call of [open] with fewer than two positional arguments (the
    path, or the mode, is given by keyword or not at all) adds no FS001
    finding, and the keywords of a call never change what visiting it
    does. *)
Theorem C10_keyword_arguments_no_FS001
    (v : LintVisitor) (l c : Z) (args kws : list node) :
  (length args < 2)%nat ->
  List.filter (has_code "FS001")
    (findings (own_visit v (NCall l c (NName "open") args kws)))
  = List.filter (has_code "FS001") (findings v)
  /\ forall f kws', own_visit v (NCall l c f args kws)
                    = own_visit v (NCall l c f args kws').
Proof.
  intros Hlen. split; [|reflexivity].
  rewrite own_visit_call_fs001.
  replace (write_violation _ _ _ args) with (@None string);
    [by rewrite app_nil_r|].
  simpl. unfold write_violation. simpl.
  destruct args as [|a0 [|a1 rest]]; simpl in Hlen; try lia; [reflexivity|].
  destruct a0 as [| | | | | | |k|]; try reflexivity.
  destruct k; reflexivity.
Qed.

(** ** Levels, the batch and the exit status *)

Lemma emitted_is_error v n : Forall is_error (emitted v n).
Proof.
  destruct n as [|l c names|l c md names lv|l c func args kws| | | | |];
    try (unfold emitted; simpl; constructor).
  - rewrite emitted_Import. induction names as [|a names IH]; simpl; [constructor|].
    apply Forall_app. split; [|done].
    unfold import_alias_findings. destruct (bool_decide _); repeat constructor.
  - rewrite emitted_ImportFrom. unfold import_from_findings.
    destruct md as [md|]; [destruct (_ && _)|]; repeat constructor.
  - rewrite emitted_Call. unfold call_findings.
    set (t := _resolve_call_target (alias_map v) func).
    destruct (bool_decide (t ∈ DANGEROUS_CALLS));
      destruct (bool_decide (top_of t.1 = Some "subprocess"));
      destruct (top_of t.1) as [tm|];
      try destruct (bool_decide (tm ∈ ["socket"; "requests"]));
      destruct (write_violation _ _ _ _); repeat constructor.
Qed.

Lemma events_is_error evs v :
  Forall is_error (findings v) ->
  Forall is_error (findings (fold_left own_visit evs v)).
Proof.
  revert v. induction evs as [|n evs IH]; intros v Hv; simpl; [done|].
  apply IH. rewrite own_visit_findings. apply Forall_app. split; [done|].
  apply emitted_is_error.
Qed.

Lemma lint_file_is_error fs file deny proj art fl :
  lint_file fs file deny proj art = Returned fl -> Forall is_error fl.
Proof.
  unfold lint_file. destruct (fs file) as [exc|e|tree|tree exc]; intros H;
    inversion H; subst.
  - repeat constructor.
  - rewrite visit_events. apply events_is_error. constructor.
Qed.

Lemma collect_is_error fs deny proj art ps acc fl :
  collect fs deny proj art ps acc = Returned fl ->
  Forall is_error acc -> Forall is_error fl.
Proof.
  revert acc. induction ps as [|p ps IH]; intros acc; simpl.
  - intros [= <-]. done.
  - destruct (lint_file fs p deny proj art) as [l|exc] eqn:E; [|discriminate].
    intros H Hacc. apply (IH _ H). apply Forall_app. split; [done|].
    eapply lint_file_is_error, E.
Qed.

Lemma has_level_spec lv fl :
  has_level lv fl = true <-> exists f, In f fl /\ Finding.level f = lv.
Proof.
  unfold has_level. rewrite existsb_exists.
  split; intros (f & Hin & Hf); exists f; split; try done.
  - by apply bool_decide_eq_true in Hf.
  - by apply bool_decide_eq_true.
Qed.

Lemma no_warn_among_errors fl :
  Forall is_error fl -> has_level "WARN" fl = false.
Proof.
  intros H. apply not_true_is_false. rewrite has_level_spec.
  intros (f & Hin & Hf). rewrite List.Forall_forall in H.
  specialize (H f Hin). unfold is_error in H. congruence.
Qed.

Lemma collect_all_analysed fs deny proj art ps acc :
  all_analysed fs ps ->
  collect fs deny proj art ps acc
  = Returned (acc ++ flat_map (file_findings fs deny proj art) ps).
Proof.
  revert acc. induction ps as [|p ps IH]; intros acc Hall; simpl.
  - by rewrite app_nil_r.
  - unfold file_findings at 1.
    destruct (Hall p (or_introl eq_refl)) as [Hp1 Hp2].
    destruct (lint_file fs p deny proj art) as [l|exc] eqn:E.
    + rewrite IH by (intros q Hq; apply Hall; by right).
      by rewrite <- app_assoc.
    + unfold lint_file in E.
      destruct (fs p) as [exc'|e|tree|tree exc'] eqn:Ep; try discriminate.
      * by destruct (Hp1 exc').
      * by destruct (Hp2 tree exc').
Qed.

Lemma collect_raises (fs : filesystem) deny proj art ps acc p exc :
  In p ps -> fs p = Raises exc ->
  exists exc', collect fs deny proj art ps acc = Raised exc'.
Proof.
  revert acc. induction ps as [|q ps IH]; intros acc Hin Hp; [destruct Hin|].
  simpl. destruct (lint_file fs q deny proj art) as [l|exc'] eqn:E; [|eauto].
  destruct Hin as [->|Hin]; [|by apply IH].
  unfold lint_file in E. rewrite Hp in E. discriminate.
Qed.


(** C9: the fail-on-warning flag changes nothing of what a run does, its
    exit code included; and every finding a run collects has level ERROR,
    so that the run has no warning. *)
Theorem C9_every_finding_is_ERROR (args : Args) (fs : filesystem) :
  (forall b, main (with_fail_on_warn b args) fs = main args fs)
  /\ forall fl, collects args fs fl ->
       Forall (fun f => Finding.level f = "ERROR") fl
       /\ has_level "WARN" fl = false.
Proof.
  split.
  - intros b. unfold main; simpl.
    destruct (paths args) as [|p0 ps0] eqn:Hps; [reflexivity|].
    destruct (collect fs _ _ _ (p0 :: ps0) []) as [fl|exc] eqn:H; [|reflexivity].
    assert (He : Forall is_error fl)
      by (eapply collect_is_error; [apply H|constructor]).
    destruct (print_findings fs (json args) fl) as [[before exc]|]; [reflexivity|].
    f_equal. unfold disposition. rewrite (no_warn_among_errors fl He).
    by rewrite !andb_false_r.
  - unfold collects. intros fl H.
    assert (He : Forall is_error fl)
      by (eapply collect_is_error; [apply H|constructor]).
    split; [exact He|]. by apply no_warn_among_errors.
Qed.


(** ** Counting the findings of the import rule *)

Lemma append_quote_inj (m n : string) : m +:+ "'" = n +:+ "'" -> m = n.
Proof.
  revert n. induction m as [|a m IH]; intros [|b n]; simpl; intros H.
  - reflexivity.
  - injection H as _ H. destruct n; discriminate.
  - injection H as _ H. destruct m; discriminate.
  - injection H as -> H. f_equal. by apply IH.
Qed.

Lemma append_inj_l (p m n : string) : p +:+ m = p +:+ n -> m = n.
Proof.
  induction p as [|a p IH]; simpl; intros H; [exact H|].
  injection H as H. by apply IH.
Qed.

Lemma names_import_imp001 file l c m n :
  names_import n (imp001_finding file l c m) = bool_decide (m = n).
Proof.
  unfold names_import, imp001_finding, has_code.
  cbn [Finding.level Finding.code Finding.msg].
  rewrite !bool_decide_eq_true_2 by reflexivity. cbn [andb].
  apply bool_decide_ext. split.
  - intros H. apply append_inj_l in H. by apply append_quote_inj.
  - by intros ->.
Qed.

Lemma count_one_imp001 (b : bool) file l c m n :
  length (List.filter (names_import n)
            (if b then [imp001_finding file l c m] else []))
  = if b && bool_decide (m = n) then 1%nat else 0%nat.
Proof.
  destruct b; [|reflexivity]. cbn [List.filter andb].
  rewrite names_import_imp001. by destruct (bool_decide (m = n)).
Qed.

Lemma names_import_code m f : names_import m f = true -> Finding.code f = "IMP001".
Proof.
  unfold names_import, has_code.
  intros [[_ H]%andb_true_iff _]%andb_true_iff. by apply bool_decide_eq_true in H.
Qed.

Lemma filter_names_import_other m (l : list Finding.t) :
  Forall (fun f => Finding.code f <> "IMP001") l ->
  List.filter (names_import m) l = [].
Proof.
  induction 1 as [|f l Hf _ IH]; [reflexivity|]. cbn [List.filter].
  destruct (names_import m f) eqn:E; [|exact IH].
  by apply names_import_code in E.
Qed.

Lemma call_findings_not_import v l c f args :
  Forall (fun x => Finding.code x <> "IMP001") (call_findings v l c f args).
Proof.
  unfold call_findings.
  set (t := _resolve_call_target (alias_map v) f).
  destruct (bool_decide (t ∈ DANGEROUS_CALLS));
    destruct (bool_decide (top_of t.1 = Some "subprocess"));
    destruct (top_of t.1) as [tm|];
    try destruct (bool_decide (tm ∈ ["socket"; "requests"]));
    destruct (write_violation _ _ _ _);
    cbn [app]; repeat (constructor; [cbn [Finding.code]; discriminate|]);
    constructor.
Qed.

Lemma deny_and_equal (deny : gset string) (x m : string) :
  m ∈ deny ->
  bool_decide (x ∈ deny) && bool_decide (x = m) = bool_decide (x = m).
Proof.
  intros Hm. destruct (bool_decide (x = m)) eqn:E.
  - apply bool_decide_eq_true in E. subst x.
    by rewrite bool_decide_eq_true_2.
  - by rewrite andb_false_r.
Qed.

Lemma emitted_import_count v n m :
  m ∈ deny_imports v ->
  length (List.filter (names_import m) (emitted v n))
  = import_occurrences_at m n.
Proof.
  intros Hm.
  destruct n as [|l c names|l c md names lv|l c func args kws| | | | |];
    try reflexivity.
  - rewrite emitted_Import. cbn [import_occurrences_at].
    induction names as [|a names IH]; [reflexivity|].
    cbn [flat_map List.filter].
    rewrite List.filter_app, length_app, IH.
    unfold import_alias_findings at 1.
    rewrite count_one_imp001, deny_and_equal by done.
    by destruct (bool_decide (PyStr.top_segment (name a) = m)).
  - rewrite emitted_ImportFrom. unfold import_from_findings.
    cbn [import_occurrences_at].
    destruct md as [md|]; [|reflexivity].
    rewrite count_one_imp001, <- andb_assoc, deny_and_equal by done.
    reflexivity.
  - rewrite emitted_Call.
    by rewrite filter_names_import_other by apply call_findings_not_import.
Qed.

Lemma events_import_count m evs v :
  m ∈ deny_imports v ->
  length (List.filter (names_import m) (findings (fold_left own_visit evs v)))
  = (length (List.filter (names_import m) (findings v))
     + list_sum (map (import_occurrences_at m) evs))%nat.
Proof.
  revert v. induction evs as [|n evs IH]; intros v Hm; simpl; [lia|].
  destruct (own_visit_config v n) as (_ & Hd & _).
  rewrite IH by (by rewrite Hd).
  rewrite own_visit_findings, List.filter_app, length_app.
  rewrite emitted_import_count by done. lia.
Qed.

(** C4 (amended): in a file that parses and is traversed to the end
    ([Parses]: the visit raises nothing), the number of IMP001 ERROR
    findings that name a denied module [m] is the number of times the file
    imports it: once for every alias of an [import] statement whose
    top-level segment is [m] and once for every [from] statement whose
    module has top-level segment [m], with or without [as]. *)
Theorem C4_one_IMP001_per_import_of_denied_module
    (fs : filesystem) (file : string) (deny : gset string) (proj art : string)
    (tree : node) (m : string) :
  fs file = Parses tree ->
  m ∈ deny ->
  exists fl,
    lint_file fs file deny proj art = Returned fl
    /\ length (List.filter (names_import m) fl) = import_occurrences m tree.
Proof.
  intros Hfs Hm. exists (lint_tree file deny proj art tree). split.
  - unfold lint_file. by rewrite Hfs.
  - unfold lint_tree, import_occurrences. rewrite visit_events.
    by rewrite events_import_count.
Qed.

(** ** Aliases and process spawning *)

Lemma error_alias_map v l c code msg :
  alias_map (error v l c code msg) = alias_map v.
Proof. reflexivity. Qed.

Lemma visit_Call_alias_map l c f args v :
  alias_map (visit_Call l c f args v) = alias_map v.
Proof.
  unfold visit_Call, check_write_path.
  set (t := _resolve_call_target (alias_map v) f).
  destruct (bool_decide (t ∈ DANGEROUS_CALLS));
    destruct (bool_decide (top_of t.1 = Some "subprocess"));
    destruct (top_of t.1) as [tm|];
    try destruct (bool_decide (tm ∈ ["socket"; "requests"]));
    simpl; destruct (write_violation _ _ _ _); reflexivity.
Qed.

Lemma visit_Import_alias_map l c v al :
  alias_map (visit_Import_alias l c v al)
  = <[PyStr.or_else (asname al) (PyStr.top_segment (name al)) := name al]>
      (alias_map v).
Proof.
  unfold visit_Import_alias, PyStr.or_else.
  destruct (bool_decide _); destruct (asname al) as [s|];
    try destruct (PyStr.truthy s); reflexivity.
Qed.

Lemma own_visit_keeps_alias a v n :
  binds a n = false -> alias_map (own_visit v n) !! a = alias_map v !! a.
Proof.
  destruct n as [|l c names|l c md names lv|l c func args kws| | | | |];
    simpl; try reflexivity.
  - unfold visit_Import. revert v.
    induction names as [|al names IH]; intros v; simpl; [reflexivity|].
    intros [H1 H2]%orb_false_elim. rewrite IH by done.
    rewrite visit_Import_alias_map. apply lookup_insert_ne.
    by apply bool_decide_eq_false in H1.
  - unfold visit_ImportFrom.
    set (v1 := match md with Some _ => _ | None => _ end).
    assert (Hv1 : alias_map v1 = alias_map v).
    { subst v1. destruct md as [m|]; [destruct (PyStr.truthy m);
        [destruct (bool_decide _)|]|]; reflexivity. }
    rewrite <- Hv1. clearbody v1. clear Hv1. revert v1.
    induction names as [|al names IH]; intros v1; simpl; [reflexivity|].
    intros [H1 H2]%orb_false_elim. rewrite IH by done.
    simpl. apply lookup_insert_ne. by apply bool_decide_eq_false in H1.
  - intros _. by rewrite visit_Call_alias_map.
Qed.

Lemma events_keep_alias a evs v :
  Forall (fun n => binds a n = false) evs ->
  alias_map (fold_left own_visit evs v) !! a = alias_map v !! a.
Proof.
  intros H. revert v. induction H as [|n evs Hn _ IH]; intros v; simpl; [done|].
  rewrite IH. by apply own_visit_keeps_alias.
Qed.

Lemma import_as_binds l c m a v :
  a <> "" ->
  alias_map (own_visit v (NImport l c [Alias m (Some a)])) !! a = Some m.
Proof.
  intros Ha. simpl. unfold visit_Import; simpl.
  rewrite visit_Import_alias_map. simpl. unfold PyStr.truthy.
  rewrite bool_decide_eq_false_2 by done. simpl. apply lookup_insert_eq.
Qed.

Lemma aliased_Popen_emits_CAL002 v l c a args kws :
  alias_map v !! a = Some "subprocess" ->
  In (cal002_finding (path v) l c)
     (emitted v (NCall l c (NAttribute (NName a) "Popen") args kws)).
Proof.
  intros Ha. rewrite emitted_Call. unfold call_findings. simpl.
  rewrite Ha. simpl. left. reflexivity.
Qed.

(** C5 (amended): in a file that parses and is traversed to the end
    ([Parses]: the visit raises nothing), when the traversal visits the
    statement [import subprocess as a], later visits a call
    [a.Popen(...)], and no import visited in between binds the name [a]
    again, the result has the CAL002 ERROR finding at that call. *)
Theorem C5_aliased_Popen_reports_CAL002
    (fs : filesystem) (file : string) (deny : gset string) (proj art : string)
    (tree : node) (pre mid post : list node) (l0 c0 l c : Z) (a : string)
    (args kws : list node) :
  fs file = Parses tree ->
  a <> "" ->
  events tree
  = pre ++ NImport l0 c0 [Alias "subprocess" (Some a)]
        :: mid ++ NCall l c (NAttribute (NName a) "Popen") args kws :: post ->
  Forall (fun n => binds a n = false) mid ->
  exists fl,
    lint_file fs file deny proj art = Returned fl
    /\ In (Finding.mk file (Some l) (Some c) "ERROR" "CAL002"
             "Process spawning via 'subprocess' is disallowed") fl.
Proof.
  intros Hfs Ha Hev Hmid. exists (lint_tree file deny proj art tree). split.
  - unfold lint_file. by rewrite Hfs.
  - unfold lint_tree. rewrite visit_events, Hev.
    rewrite fold_left_app. cbn [fold_left].
    rewrite fold_left_app. cbn [fold_left].
    set (v0 := fold_left own_visit pre (LintVisitor_init file deny proj art)).
    set (v1 := own_visit v0 (NImport l0 c0 [Alias "subprocess" (Some a)])).
    set (v2 := fold_left own_visit mid v1).
    set (call := NCall l c (NAttribute (NName a) "Popen") args kws).
    destruct (events_findings_prefix post (own_visit v2 call)) as [rest ->].
    apply in_or_app. left.
    rewrite own_visit_findings. apply in_or_app. right.
    assert (Hpath : path v2 = file).
    { destruct (events_config mid v1) as (Hp2 & _).
      destruct (own_visit_config v0 (NImport l0 c0 [Alias "subprocess" (Some a)]))
        as (Hp1 & _).
      destruct (events_config pre (LintVisitor_init file deny proj art))
        as (Hp0 & _).
      fold v0 in Hp0. fold v1 in Hp1. fold v2 in Hp2.
      rewrite Hp2, Hp1, Hp0. reflexivity. }
    rewrite <- Hpath. apply aliased_Popen_emits_CAL002.
    subst v2. rewrite events_keep_alias by done.
    subst v1. by apply import_as_binds.
Qed.

(** ** Claims settled on concrete runs *)



(** C2: a file that cannot be read aborts the batch.  With [a.py]
    unreadable and [b.py] holding [import socket], the run over both ends
    with the exception of [a.py] and prints nothing, while the run over
    [b.py] alone prints its IMP001 finding and exits with code 2. *)
Theorem C2_unreadable_file_aborts_the_batch :
  main (args_for ["a.py"; "b.py"]) fs_missing_a = Uncaught "FileNotFoundError"
  /\ main (args_for ["b.py"]) fs_missing_a
     = Exit (Lines ["ERROR [IMP001] b.py:1:0 Disallowed import: 'socket'"]) 2.
Proof. split; vm_compute; reflexivity. Qed.

(** The defect in general: one path whose loading raises makes [main] end
    with an uncaught exception, whatever the other files hold. *)
Lemma main_raises args (fs : filesystem) p exc :
  In p (paths args) -> fs p = Raises exc ->
  exists exc', main args fs = Uncaught exc'.
Proof.
  intros Hin Hp. unfold main.
  destruct (collect_raises fs (list_to_set (arg_deny_imports args))
              (arg_project_root args) (arg_artifacts_root args)
              (paths args) [] p exc Hin Hp) as [exc' Hc].
  destruct (paths args) as [|p0 ps0]; [destruct Hin|].
  rewrite Hc. eauto.
Qed.

(** A file that fails to parse is local: it contributes its SYN001
    finding and leaves the findings of the files around it as they are. *)
Lemma syntax_error_is_local (fs : filesystem) deny proj art ps1 p ps2 e :
  all_analysed fs (ps1 ++ p :: ps2) ->
  fs p = RaisesSyntaxError e ->
  collect fs deny proj art (ps1 ++ p :: ps2) []
  = Returned (flat_map (file_findings fs deny proj art) ps1
              ++ [Finding.mk p (se_lineno e) (se_offset e) "ERROR" "SYN001"
                    ("SyntaxError: " +:+ se_str e)]
              ++ flat_map (file_findings fs deny proj art) ps2).
Proof.
  intros Hall Hp. rewrite collect_all_analysed by done.
  rewrite flat_map_app. simpl. unfold file_findings at 2, lint_file.
  by rewrite Hp.
Qed.


(** C6: for a [SyntaxError] without a position the one SYN001 finding
    carries [None] as line and column, not 0: [getattr(e, "lineno", 0)]
    finds the attribute and returns its value. *)
Theorem C6_syntax_error_without_position :
  lint_file fs_null_bytes "bad.py" default_deny "/project" "/artifacts"
  = Returned [Finding.mk "bad.py" None None "ERROR" "SYN001"
                "SyntaxError: source code string cannot contain null bytes"]
  /\ lint_file fs_null_bytes "bad.py" default_deny "/project" "/artifacts"
     <> Returned [Finding.mk "bad.py" (Some 0) (Some 0) "ERROR" "SYN001"
                   "SyntaxError: source code string cannot contain null bytes"].
Proof. split; [reflexivity|discriminate]. Qed.

(** C4, as stated, fails: a file with [import socket] and
    [from socket import gethostname] gets two IMP001 findings that name
    [socket], not exactly one; and a file that imports [socket] and is too
    deep for the traversal has no result at all. *)
Lemma C4_counterexample_import_twice :
  lint_file (every_file tree_import_twice) "a.py" default_deny
    "/project" "/artifacts"
  = Returned [imp001_finding "a.py" 1 0 "socket";
              imp001_finding "a.py" 2 0 "socket"]
  /\ length (List.filter (names_import "socket")
               [imp001_finding "a.py" 1 0 "socket";
                imp001_finding "a.py" 2 0 "socket"]) <> 1%nat
  /\ lint_file (fs_visit_raises tree_deep "RecursionError") "deep.py"
       default_deny "/project" "/artifacts" = Raised "RecursionError".
Proof. repeat split; vm_compute; try reflexivity; discriminate. Qed.

Lemma C4_witness :
  exists fl,
    lint_file (every_file tree_import_twice) "a.py" default_deny
      "/project" "/artifacts" = Returned fl
    /\ length (List.filter (names_import "socket") fl)
       = import_occurrences "socket" tree_import_twice.
Proof.
  apply (C4_one_IMP001_per_import_of_denied_module
           (every_file tree_import_twice) "a.py" default_deny
           "/project" "/artifacts" tree_import_twice "socket").
  - reflexivity.
  - apply (bool_decide_unpack _). vm_compute. exact I.
Defined.

(** C5, as stated, fails: in a file with [import subprocess as sp], then
    [import os as sp], then [sp.Popen("ls")], the call resolves to [os] and
    the only finding is the IMP001 of the first import; and a file with
    [import subprocess as sp] and [sp.Popen("ls")] that is too deep for the
    traversal has no result at all. *)
Lemma C5_counterexample_alias_rebound :
  lint_file (every_file tree_sp_rebound) "a.py" default_deny
    "/project" "/artifacts"
  = Returned [imp001_finding "a.py" 1 0 "subprocess"]
  /\ List.filter (has_code "CAL002") [imp001_finding "a.py" 1 0 "subprocess"]
     = []
  /\ lint_file (fs_visit_raises tree_deep "RecursionError") "deep.py"
       default_deny "/project" "/artifacts" = Raised "RecursionError".
Proof. repeat split; vm_compute; reflexivity. Qed.

Lemma C5_witness :
  exists fl,
    lint_file (every_file tree_sp_Popen) "a.py" default_deny
      "/project" "/artifacts" = Returned fl
    /\ In (Finding.mk "a.py" (Some 2) (Some 0) "ERROR" "CAL002"
             "Process spawning via 'subprocess' is disallowed") fl.
Proof.
  apply (C5_aliased_Popen_reports_CAL002
           (every_file tree_sp_Popen) "a.py" default_deny "/project"
           "/artifacts" tree_sp_Popen [] [] [] 1 0 2 0 "sp"
           [NConstant (CStr "ls")] []).
  - reflexivity.
  - discriminate.
  - reflexivity.
  - constructor.
Defined.

(** C3, as stated, fails: with the project root given as [/project/], the
    literal [/projectX/evil] has an absolute normal form that starts
    neither with [/project/], nor with the artifacts root, nor with [./],
    yet [open("/projectX/evil", "w")] gets no finding, because the visitor
    compares with the normalised root [/project]; and a file with
    [open("/etc/passwd", "w")] that is too deep for the traversal has no
    result at all. *)
Lemma C3_counterexample_unnormalised_root :
  (PosixPath.isabs (PosixPath.normpath "/projectX/evil") = true
   /\ PyStr.startswith (PosixPath.normpath "/projectX/evil") "/project/" = false
   /\ PyStr.startswith (PosixPath.normpath "/projectX/evil") "/artifacts" = false
   /\ PyStr.startswith (PosixPath.normpath "/projectX/evil") "./" = false
   /\ lint_file (every_file tree_open_projectX) "a.py" default_deny
        "/project/" "/artifacts" = Returned [])
  /\ lint_file (fs_visit_raises tree_deep "RecursionError") "deep.py"
       default_deny "/project" "/artifacts" = Raised "RecursionError".
Proof. repeat split; vm_compute; reflexivity. Qed.

Lemma C3_witness :
  exists fl,
    lint_file (every_file tree_open_passwd) "a.py" default_deny
      "/project" "/artifacts" = Returned fl
    /\ List.filter (has_code "FS001") fl
       = [Finding.mk "a.py" (Some 1) (Some 0) "ERROR" "FS001"
            "Write outside allowed dirs: '/etc/passwd'"].
Proof.
  apply (C3_open_outside_roots_one_FS001
           (every_file tree_open_passwd) "a.py" default_deny "/project"
           "/artifacts" tree_open_passwd [] [] 1 0 "/etc/passwd" "w" [] []);
    reflexivity.
Defined.

(** [open(name, "w")]: the path is a variable. *)
Lemma C7_witness :
  List.filter (has_code "FS001")
    (findings (own_visit (LintVisitor_init "a.py" default_deny "/project" "/artifacts")
                 (NCall 1 0 (NName "open")
                    [NName "name"; NConstant (CStr "w")] [])))
  = List.filter (has_code "FS001")
      (findings (LintVisitor_init "a.py" default_deny "/project" "/artifacts")).
Proof.
  apply (C7_nonliteral_path_or_mode_no_FS001
           (LintVisitor_init "a.py" default_deny "/project" "/artifacts")
           1 0 [NName "name"; NConstant (CStr "w")] []).
  left. reflexivity.
Defined.

(** [open("../../etc/passwd", "w")] *)
Lemma C8_witness :
  List.filter (has_code "FS001")
    (findings (own_visit (LintVisitor_init "a.py" default_deny "/project" "/artifacts")
                 (NCall 1 0 (NName "open")
                    [NConstant (CStr "../../etc/passwd"); NConstant (CStr "w")]
                    [])))
  = List.filter (has_code "FS001")
      (findings (LintVisitor_init "a.py" default_deny "/project" "/artifacts")).
Proof.
  apply (C8_relative_literal_path_no_FS001
           (LintVisitor_init "a.py" default_deny "/project" "/artifacts")
           1 0 "../../etc/passwd" "w" [] []); reflexivity.
Defined.

Lemma C9_witness :
  Forall (fun f => Finding.level f = "ERROR")
    [fs001_finding "a.py" 1 0 "/etc/passwd"]
  /\ has_level "WARN" [fs001_finding "a.py" 1 0 "/etc/passwd"] = false.
Proof.
  apply (proj2 (C9_every_finding_is_ERROR (args_for ["a.py"])
                  (every_file tree_open_passwd))
           [fs001_finding "a.py" 1 0 "/etc/passwd"]).
  vm_compute. reflexivity.
Defined.

(** [open("/etc/passwd", mode="w")] *)
Lemma C10_witness :
  List.filter (has_code "FS001")
    (findings (own_visit (LintVisitor_init "a.py" default_deny "/project" "/artifacts")
                 (NCall 1 0 (NName "open") [NConstant (CStr "/etc/passwd")]
                    [NKeyword (Some "mode") (NConstant (CStr "w"))])))
  = List.filter (has_code "FS001")
      (findings (LintVisitor_init "a.py" default_deny "/project" "/artifacts"))
  /\ forall f kws',
       own_visit (LintVisitor_init "a.py" default_deny "/project" "/artifacts")
         (NCall 1 0 f [NConstant (CStr "/etc/passwd")]
            [NKeyword (Some "mode") (NConstant (CStr "w"))])
       = own_visit (LintVisitor_init "a.py" default_deny "/project" "/artifacts")
           (NCall 1 0 f [NConstant (CStr "/etc/passwd")] kws').
Proof.
  apply (C10_keyword_arguments_no_FS001
           (LintVisitor_init "a.py" default_deny "/project" "/artifacts")
           1 0 [NConstant (CStr "/etc/passwd")]
           [NKeyword (Some "mode") (NConstant (CStr "w"))]).
  simpl. lia.
Defined.

(** ** Further properties of the call rules *)

Lemma own_visit_call_findings v l c f args kws :
  findings (own_visit v (NCall l c f args kws))
  = findings v ++ call_findings v l c f args.
Proof. apply visit_Call_findings. Qed.

Lemma dangerous_cases (t : option string * string) :
  t ∈ DANGEROUS_CALLS ->
  t = (Some "os", "system") \/ t = (Some "os", "popen")
  \/ t = (Some "builtins", "eval") \/ t = (Some "builtins", "exec").
Proof.
  unfold DANGEROUS_CALLS. rewrite !elem_of_cons, elem_of_nil. tauto.
Qed.

Lemma write_violation_module proj art m f args :
  write_violation proj art (Some m, f) args = None.
Proof. unfold write_violation. by rewrite bool_decide_eq_false_2. Qed.

Lemma call_findings_cal001 v l c f args :
  List.filter (has_code "CAL001") (call_findings v l c f args)
  = if bool_decide (_resolve_call_target (alias_map v) f ∈ DANGEROUS_CALLS)
    then [cal001_finding (path v) l c
            (fmt_mod (_resolve_call_target (alias_map v) f).1)
            (_resolve_call_target (alias_map v) f).2]
    else [].
Proof.
  unfold call_findings.
  set (t := _resolve_call_target (alias_map v) f).
  destruct (bool_decide (t ∈ DANGEROUS_CALLS));
    destruct (bool_decide (top_of t.1 = Some "subprocess"));
    destruct (top_of t.1) as [tm|];
    try destruct (bool_decide (tm ∈ ["socket"; "requests"]));
    destruct (write_violation _ _ _ _); reflexivity.
Qed.

(** X1: a call of the bare name [eval] or [exec] adds exactly one finding,
    the CAL001 ERROR for [builtins.eval] or [builtins.exec], whatever the
    alias table holds. *)
Theorem X1_eval_exec_always_CAL001
    (v : LintVisitor) (l c : Z) (id : string) (args kws : list node) :
  id = "eval" \/ id = "exec" ->
  findings (own_visit v (NCall l c (NName id) args kws))
  = findings v ++ [Finding.mk (path v) (Some l) (Some c) "ERROR" "CAL001"
                     ("Dangerous call: builtins." +:+ id)].
Proof.
  intros H. rewrite own_visit_call_findings. f_equal.
  destruct H as [->| ->]; reflexivity.
Qed.

(** X2: a call [x.system(...)] or [x.popen(...)] where the name [x] stands
    for the module [os], through an import under any alias or as the
    unbound name [os], adds exactly one finding, the CAL001 ERROR for
    [os.system] or [os.popen]. *)
Theorem X2_os_system_through_alias_CAL001
    (v : LintVisitor) (l c : Z) (x f : string) (args kws : list node) :
  default x (alias_map v !! x) = "os" ->
  f = "system" \/ f = "popen" ->
  findings (own_visit v (NCall l c (NAttribute (NName x) f) args kws))
  = findings v ++ [Finding.mk (path v) (Some l) (Some c) "ERROR" "CAL001"
                     ("Dangerous call: os." +:+ f)].
Proof.
  intros Hx Hf. rewrite own_visit_call_findings. f_equal.
  unfold call_findings. cbn [_resolve_call_target _resolve_base].
  rewrite Hx, write_violation_module.
  destruct Hf as [->| ->]; reflexivity.
Qed.

(** X3: a call whose callee is a bare name other than [eval] and [exec]
    never gets a CAL001 finding, also when the name was imported with
    [from os import system]. *)
Theorem X3_bare_name_call_never_CAL001
    (v : LintVisitor) (l c : Z) (id : string) (args kws : list node) :
  id <> "eval" -> id <> "exec" ->
  List.filter (has_code "CAL001")
    (findings (own_visit v (NCall l c (NName id) args kws)))
  = List.filter (has_code "CAL001") (findings v).
Proof.
  intros He Hx.
  rewrite own_visit_call_findings, List.filter_app, call_findings_cal001.
  rewrite bool_decide_eq_false_2; [by rewrite app_nil_r|].
  intros Hd. apply dangerous_cases in Hd. cbn [_resolve_call_target] in Hd.
  destruct (bool_decide (id ∈ ["eval"; "exec"; "open"])) eqn:E1.
  - destruct (bool_decide (id ∈ ["eval"; "exec"])) eqn:E2.
    + apply bool_decide_eq_true in E2.
      rewrite !elem_of_cons, elem_of_nil in E2. tauto.
    + destruct Hd as [Hd|[Hd|[Hd|Hd]]]; discriminate.
  - destruct (PyStr.truthy_opt (alias_map v !! id));
      destruct Hd as [Hd|[Hd|[Hd|Hd]]]; try discriminate;
      injection Hd as _ Hd; discriminate.
Qed.

(** X4: a call of a bare name (other than [eval], [exec], [open]) that an
    import binds to a module with top-level segment [subprocess], as
    [from subprocess import run] does for [run], adds exactly one finding,
    the CAL002 ERROR. *)
Theorem X4_from_subprocess_import_call_CAL002
    (v : LintVisitor) (l c : Z) (id m : string) (args kws : list node) :
  id ∉ ["eval"; "exec"; "open"] ->
  alias_map v !! id = Some m ->
  top_of (Some m) = Some "subprocess" ->
  findings (own_visit v (NCall l c (NName id) args kws))
  = findings v ++ [Finding.mk (path v) (Some l) (Some c) "ERROR" "CAL002"
                     "Process spawning via 'subprocess' is disallowed"].
Proof.
  intros Hid Hm Htop. rewrite own_visit_call_findings. f_equal.
  unfold call_findings. cbn [_resolve_call_target].
  rewrite (bool_decide_eq_false_2 _ Hid), Hm.
  assert (Ht : PyStr.truthy m = true).
  { unfold top_of in Htop. by destruct (PyStr.truthy m). }
  cbn [PyStr.truthy_opt]. rewrite Ht. cbn [fst snd].
  rewrite Htop, write_violation_module.
  rewrite bool_decide_eq_false_2.
  2:{ intros Hd. apply dangerous_cases in Hd.
      destruct Hd as [Hd|[Hd|[Hd|Hd]]]; injection Hd as _ Hd; discriminate. }
  reflexivity.
Qed.

(** X5: the dangerous-call rule compares the whole dotted module path.
    After an [import nm] without [as], where [nm] is neither [os] nor
    [builtins] (for instance [import os.path]), the top-level name is bound
    to [nm], and a call [top.f(...)] gets no CAL001 finding. *)
Theorem X5_dotted_import_call_no_CAL001
    (v : LintVisitor) (l0 c0 l c : Z) (nm f : string) (args kws : list node) :
  nm <> "os" -> nm <> "builtins" ->
  let v' := own_visit v (NImport l0 c0 [Alias nm None]) in
  alias_map v' !! PyStr.top_segment nm = Some nm
  /\ List.filter (has_code "CAL001")
       (findings (own_visit v' (NCall l c
                    (NAttribute (NName (PyStr.top_segment nm)) f) args kws)))
     = List.filter (has_code "CAL001") (findings v').
Proof.
  intros Hos Hb v'.
  assert (Hbind : alias_map v' !! PyStr.top_segment nm = Some nm).
  { subst v'. cbn [own_visit visit_Import fold_left].
    rewrite visit_Import_alias_map. cbn [asname name PyStr.or_else].
    apply lookup_insert_eq. }
  split; [exact Hbind|].
  rewrite own_visit_call_findings, List.filter_app, call_findings_cal001.
  cbn [_resolve_call_target _resolve_base]. rewrite Hbind. cbn [default].
  rewrite bool_decide_eq_false_2; [by rewrite app_nil_r|].
  intros Hd. apply dangerous_cases in Hd.
  destruct Hd as [Hd|[Hd|[Hd|Hd]]]; injection Hd as Hd _; congruence.
Qed.

(** X7: a call whose callee is neither a name nor an attribute access (the
    result of another call, a subscript, ...), or an attribute of such an
    expression, leaves the visitor as it is: no finding of any rule. *)
Theorem X7_opaque_callee_no_finding
    (v : LintVisitor) (l c : Z) (f : node) (args kws : list node) :
  opaque f = true
  \/ (exists base attr, f = NAttribute base attr /\ opaque base = true) ->
  own_visit v (NCall l c f args kws) = v.
Proof.
  intros [H|(base & attr & -> & H)].
  - destruct f; try discriminate; reflexivity.
  - destruct base; try discriminate; reflexivity.
Qed.

(** X8: a call of [open] with a literal path whose normal form starts with
    the visitor's project root or artifacts root adds no FS001 finding,
    whatever the mode. *)
Theorem X8_write_under_allowed_root_no_FS001
    (v : LintVisitor) (l c : Z) (p : string) (rest kws : list node) :
  PyStr.startswith (PosixPath.normpath p) (project_root v) = true
  \/ PyStr.startswith (PosixPath.normpath p) (artifacts_root v) = true ->
  List.filter (has_code "FS001")
    (findings (own_visit v (NCall l c (NName "open")
                 (NConstant (CStr p) :: rest) kws)))
  = List.filter (has_code "FS001") (findings v).
Proof.
  intros H. rewrite own_visit_call_fs001.
  replace (write_violation _ _ _ _) with (@None string);
    [by rewrite app_nil_r|].
  change (_resolve_call_target ∅ (NName "open")) with (@None string, "open").
  unfold write_violation. rewrite bool_decide_eq_true_2 by reflexivity.
  destruct (write_mode _); [|reflexivity].
  destruct H as [-> | ->]; by rewrite ?orb_true_r.
Qed.

(** X9: a call of [open] whose literal mode has none of the characters
    [w], [a], [x] adds no FS001 finding, wherever the path points; this
    includes the read-write mode [r+]. *)
Theorem X9_mode_without_w_a_x_no_FS001
    (v : LintVisitor) (l c : Z) (path_arg : node) (m : string)
    (rest kws : list node) :
  write_enabling m = false ->
  List.filter (has_code "FS001")
    (findings (own_visit v (NCall l c (NName "open")
                 (path_arg :: NConstant (CStr m) :: rest) kws)))
  = List.filter (has_code "FS001") (findings v).
Proof.
  intros Hm. rewrite own_visit_call_fs001.
  replace (write_violation _ _ _ _) with (@None string);
    [by rewrite app_nil_r|].
  change (_resolve_call_target ∅ (NName "open")) with (@None string, "open").
  unfold write_violation. rewrite bool_decide_eq_true_2 by reflexivity.
  unfold write_mode. fold (write_enabling m). rewrite Hm.
  destruct path_arg as [| | | | | | |k|]; try reflexivity.
  destruct k; reflexivity.
Qed.

(** *** Attribute chains *)

Lemma split_hd_cons (sep c : ascii) (r : string) :
  Ascii.eqb c sep = false ->
  hd "" (PyStr.split sep (String c r)) = String c (hd "" (PyStr.split sep r)).
Proof.
  intros H. cbn [PyStr.split]. rewrite H. by destruct (PyStr.split sep r).
Qed.

Lemma top_segment_append_dot (b a : string) :
  PyStr.top_segment (b +:+ "." +:+ a) = PyStr.top_segment b.
Proof.
  unfold PyStr.top_segment. induction b as [|ch b IH].
  - reflexivity.
  - change (String ch b +:+ "." +:+ a) with (String ch (b +:+ "." +:+ a)).
    destruct (Ascii.eqb ch ".") eqn:E.
    + cbn [PyStr.split]. by rewrite E.
    + by rewrite !split_hd_cons, IH.
Qed.

Lemma truthy_append (b s : string) :
  PyStr.truthy b = true -> PyStr.truthy (b +:+ s) = true.
Proof. destruct b; [discriminate|reflexivity]. Qed.

Lemma resolve_base_chain am root attrs :
  PyStr.truthy (_resolve_base am root) = true ->
  PyStr.truthy (_resolve_base am (attr_chain root attrs)) = true
  /\ PyStr.top_segment (_resolve_base am (attr_chain root attrs))
     = PyStr.top_segment (_resolve_base am root).
Proof.
  unfold attr_chain. revert root.
  induction attrs as [|a attrs IH]; intros root Hr; [done|].
  cbn [fold_left].
  assert (Hstep : _resolve_base am (NAttribute root a)
                  = _resolve_base am root +:+ "." +:+ a).
  { cbn [_resolve_base]. by rewrite Hr. }
  destruct (IH (NAttribute root a)) as [Ht Hs].
  { rewrite Hstep. by apply truthy_append. }
  split; [exact Ht|]. by rewrite Hs, Hstep, top_segment_append_dot.
Qed.

(** When the name [x] stands for a module whose top-level segment is
    [subprocess], visiting [x.a1...an.f(...)] adds the CAL002 finding. *)
Lemma attribute_chain_emits_CAL002
    (v : LintVisitor) (l c : Z) (x f : string) (attrs : list string)
    (args kws : list node) :
  PyStr.truthy (default x (alias_map v !! x)) = true ->
  PyStr.top_segment (default x (alias_map v !! x)) = "subprocess" ->
  In (cal002_finding (path v) l c)
     (findings (own_visit v (NCall l c
                  (NAttribute (attr_chain (NName x) attrs) f) args kws))).
Proof.
  intros Ht Hs. rewrite own_visit_call_findings.
  apply in_or_app. right. unfold call_findings.
  cbn [_resolve_call_target fst snd].
  destruct (resolve_base_chain (alias_map v) (NName x) attrs Ht) as [Ht' Hs'].
  cbn [_resolve_base] in Hs'. rewrite Hs in Hs'.
  assert (Htop : top_of (Some (_resolve_base (alias_map v)
                                 (attr_chain (NName x) attrs)))
                 = Some "subprocess").
  { unfold top_of. by rewrite Ht', Hs'. }
  rewrite Htop. apply in_or_app. right. apply in_or_app. left.
  rewrite bool_decide_eq_true_2 by reflexivity. by left.
Qed.

(** The visitor that reaches a call after an import that binds [a] to [m],
    with no import binding [a] again in between: it is the visitor of the
    file, [a] still stands for [m], and what the call adds is in the
    result. *)
Lemma reach_call_after_import file deny proj art tree pre mid post imp call a m :
  events tree = pre ++ imp :: mid ++ call :: post ->
  (forall v, alias_map (own_visit v imp) !! a = Some m) ->
  Forall (fun n => binds a n = false) mid ->
  exists v,
    path v = file /\ alias_map v !! a = Some m
    /\ forall F, In F (findings (own_visit v call)) ->
                 In F (lint_tree file deny proj art tree).
Proof.
  intros Hev Himp Hmid. unfold lint_tree. rewrite visit_events, Hev.
  rewrite fold_left_app. cbn [fold_left].
  rewrite fold_left_app. cbn [fold_left].
  set (v0 := fold_left own_visit pre (LintVisitor_init file deny proj art)).
  set (v1 := own_visit v0 imp).
  set (v2 := fold_left own_visit mid v1).
  exists v2. split; [|split].
  - destruct (events_config mid v1) as (Hp2 & _).
    destruct (own_visit_config v0 imp) as (Hp1 & _).
    destruct (events_config pre (LintVisitor_init file deny proj art))
      as (Hp0 & _).
    fold v0 in Hp0. fold v1 in Hp1. fold v2 in Hp2.
    rewrite Hp2, Hp1, Hp0. reflexivity.
  - subst v2. rewrite events_keep_alias by done. subst v1. apply Himp.
  - intros F HF.
    destruct (events_findings_prefix post (own_visit v2 call)) as [rest ->].
    apply in_or_app. by left.
Qed.

(** X6: the process-spawning rule looks at the top-level segment only,
    whatever attributes follow the name.  In a file that parses and is
    traversed to the end, when the traversal visits
    [import subprocess as a], later visits a call [a.a1...an.f(...)], and
    no import visited in between binds [a] again, the result has the CAL002
    ERROR finding at that call. *)
Theorem X6_attribute_chain_CAL002
    (fs : filesystem) (file : string) (deny : gset string) (proj art : string)
    (tree : node) (pre mid post : list node) (l0 c0 l c : Z) (a f : string)
    (attrs : list string) (args kws : list node) :
  fs file = Parses tree ->
  a <> "" ->
  events tree
  = pre ++ NImport l0 c0 [Alias "subprocess" (Some a)]
        :: mid ++ NCall l c (NAttribute (attr_chain (NName a) attrs) f)
                    args kws :: post ->
  Forall (fun n => binds a n = false) mid ->
  exists fl,
    lint_file fs file deny proj art = Returned fl
    /\ In (Finding.mk file (Some l) (Some c) "ERROR" "CAL002"
             "Process spawning via 'subprocess' is disallowed") fl.
Proof.
  intros Hfs Ha Hev Hmid. exists (lint_tree file deny proj art tree). split.
  - unfold lint_file. by rewrite Hfs.
  - destruct (reach_call_after_import file deny proj art tree pre mid post
                _ _ a "subprocess" Hev) as (v & Hp & Hal & Hreach).
    + intros v. by apply import_as_binds.
    + exact Hmid.
    + apply Hreach. rewrite <- Hp.
      apply attribute_chain_emits_CAL002; by rewrite Hal.
Qed.

(** *** One finding per call at most *)

Lemma top_of_Some_module (t1 : option string) (x : string) :
  top_of t1 = Some x -> exists m, t1 = Some m.
Proof. destruct t1 as [m|]; [eauto|discriminate]. Qed.

(** X10: visiting a call adds at most one finding: the dangerous-call,
    process-spawning, network and write-path rules exclude one another. *)
Theorem X10_call_adds_at_most_one_finding
    (v : LintVisitor) (l c : Z) (f : node) (args kws : list node) :
  exists added,
    findings (own_visit v (NCall l c f args kws)) = findings v ++ added
    /\ (length added <= 1)%nat.
Proof.
  exists (call_findings v l c f args). split; [apply own_visit_call_findings|].
  unfold call_findings.
  set (t := _resolve_call_target (alias_map v) f).
  destruct (bool_decide (t ∈ DANGEROUS_CALLS)) eqn:Ed.
  - apply bool_decide_eq_true, dangerous_cases in Ed.
    destruct Ed as [->|[->|[->| ->]]]; cbn [fst snd];
      rewrite write_violation_module; vm_compute; lia.
  - destruct (top_of t.1) as [tm|] eqn:Et.
    + destruct (top_of_Some_module _ _ Et) as [m Hm].
      destruct t as [t1 t2]. cbn [fst] in Hm. subst t1.
      rewrite write_violation_module.
      destruct (bool_decide (Some tm = Some "subprocess")) eqn:Es.
      * apply bool_decide_eq_true in Es. injection Es as ->.
        rewrite (bool_decide_eq_false_2 ("subprocess" ∈ ["socket"; "requests"])).
        -- cbn [app length]. lia.
        -- rewrite !elem_of_cons, elem_of_nil. intros [?|[?|[]]]; discriminate.
      * destruct (bool_decide (tm ∈ ["socket"; "requests"])); cbn [app length]; lia.
    + rewrite bool_decide_eq_false_2 by discriminate.
      destruct (write_violation _ _ _ _); cbn [app length]; lia.
Qed.

(** ** The deny set and the other rules *)

Lemma visit_Import_alias_maps l c names v :
  alias_map (visit_Import l c names v)
  = fold_left
      (fun am al =>
         <[PyStr.or_else (asname al) (PyStr.top_segment (name al)) := name al]> am)
      names (alias_map v).
Proof.
  unfold visit_Import. revert v.
  induction names as [|al names IH]; intros v; cbn [fold_left]; [reflexivity|].
  by rewrite IH, visit_Import_alias_map.
Qed.

Lemma fold_bind_alias_maps {A} (k m : A -> string) (l : list A) v :
  alias_map (fold_left (fun w a => bind_alias w (k a) (m a)) l v)
  = fold_left (fun am a => <[k a := m a]> am) l (alias_map v).
Proof.
  revert v. induction l as [|a l IH]; intros v; cbn [fold_left]; [reflexivity|].
  by rewrite IH.
Qed.

Lemma visit_ImportFrom_alias_maps l c md names v :
  alias_map (visit_ImportFrom l c md names v)
  = fold_left
      (fun am al =>
         <[PyStr.or_else (asname al) (name al) := PyStr.or_else md (name al)]> am)
      names (alias_map v).
Proof.
  unfold visit_ImportFrom. rewrite fold_bind_alias_maps. f_equal.
  destruct md as [m|]; [destruct (PyStr.truthy m); [destruct (bool_decide _)|]|];
    reflexivity.
Qed.

Lemma own_visit_agree v w n : agree v w -> agree (own_visit v n) (own_visit w n).
Proof.
  intros (Hp & Hr & Ha & Hm).
  destruct (own_visit_config v n) as (Hp1 & _ & Hr1 & Ha1).
  destruct (own_visit_config w n) as (Hp2 & _ & Hr2 & Ha2).
  repeat split; try congruence.
  destruct n as [|l c names|l c md names lv|l c func args kws| | | | |];
    cbn [own_visit]; try exact Hm.
  - by rewrite !visit_Import_alias_maps, Hm.
  - by rewrite !visit_ImportFrom_alias_maps, Hm.
  - by rewrite !visit_Call_alias_map.
Qed.

Lemma filter_not_import_of_imports (l : list Finding.t) :
  Forall (fun f => Finding.code f = "IMP001") l ->
  List.filter not_import_finding l = [].
Proof.
  induction 1 as [|f l Hf _ IH]; [reflexivity|]. cbn [List.filter].
  unfold not_import_finding at 1, has_code.
  by rewrite bool_decide_eq_true_2.
Qed.

Lemma call_findings_agree v w l c f args :
  agree v w -> call_findings v l c f args = call_findings w l c f args.
Proof.
  intros (Hp & Hr & Ha & Hm). unfold call_findings.
  by rewrite Hp, Hr, Ha, Hm.
Qed.

Lemma emitted_agree v w n :
  agree v w ->
  List.filter not_import_finding (emitted v n)
  = List.filter not_import_finding (emitted w n).
Proof.
  intros H.
  destruct n as [|l c names|l c md names lv|l c func args kws| | | | |];
    try reflexivity.
  - rewrite !emitted_Import.
    by rewrite !filter_not_import_of_imports
      by apply import_alias_findings_code.
  - rewrite !emitted_ImportFrom.
    by rewrite !filter_not_import_of_imports
      by apply import_from_findings_code.
  - rewrite !emitted_Call. by rewrite (call_findings_agree v w).
Qed.

Lemma events_agree evs v w :
  agree v w ->
  List.filter not_import_finding (findings v)
  = List.filter not_import_finding (findings w) ->
  List.filter not_import_finding (findings (fold_left own_visit evs v))
  = List.filter not_import_finding (findings (fold_left own_visit evs w)).
Proof.
  revert v w. induction evs as [|n evs IH]; intros v w Hvw Hf; [exact Hf|].
  cbn [fold_left]. apply IH; [by apply own_visit_agree|].
  rewrite !own_visit_findings, !List.filter_app, Hf.
  by rewrite (emitted_agree v w).
Qed.

(** X11: the deny set decides IMP001 findings only.  For every file, the
    findings of all other rules (CAL001, CAL002, CAL003, FS001, SYN001) are
    the same, in the same order, under any two deny sets. *)
Theorem X11_deny_set_only_affects_IMP001
    (fs : filesystem) (file : string) (deny deny' : gset string)
    (proj art : string) :
  List.filter not_import_finding (file_findings fs deny proj art file)
  = List.filter not_import_finding (file_findings fs deny' proj art file).
Proof.
  unfold file_findings, lint_file.
  destruct (fs file) as [exc|e|tree|tree exc]; try reflexivity.
  rewrite !visit_events. apply events_agree; [|reflexivity].
  repeat split.
Qed.

Lemma filter_code_none (c : string) (l : list Finding.t) :
  Forall (fun f => Finding.code f <> c) l -> List.filter (has_code c) l = [].
Proof.
  induction 1 as [|f l Hf _ IH]; [reflexivity|]. cbn [List.filter].
  unfold has_code at 1. by rewrite bool_decide_eq_false_2.
Qed.

Lemma emitted_no_import_when_deny_empty v n :
  deny_imports v = ∅ -> List.filter (has_code "IMP001") (emitted v n) = [].
Proof.
  intros Hd.
  destruct n as [|l c names|l c md names lv|l c func args kws| | | | |];
    try reflexivity.
  - rewrite emitted_Import.
    induction names as [|a names IH]; [reflexivity|].
    cbn [flat_map]. rewrite List.filter_app, IH.
    unfold import_alias_findings. rewrite Hd.
    by rewrite bool_decide_eq_false_2 by apply not_elem_of_empty.
  - rewrite emitted_ImportFrom. unfold import_from_findings. rewrite Hd.
    destruct md as [md|]; [|reflexivity].
    rewrite (bool_decide_eq_false_2 (_ ∈ ∅)) by apply not_elem_of_empty.
    by rewrite andb_false_r.
  - rewrite emitted_Call. apply filter_code_none, call_findings_not_import.
Qed.

Lemma flat_map_nil {A B} (l : list A) : flat_map (fun _ : A => @nil B) l = [].
Proof. induction l; [reflexivity|assumption]. Qed.

(** X12: with an empty deny set ([--deny-imports] without values) no file
    gets an IMP001 finding, whatever it imports. *)
Theorem X12_empty_deny_set_no_IMP001
    (fs : filesystem) (file : string) (proj art : string) :
  List.filter (has_code "IMP001") (file_findings fs ∅ proj art file) = [].
Proof.
  unfold file_findings, lint_file.
  destruct (fs file) as [exc|e|tree|tree exc]; try reflexivity.
  rewrite visit_events.
  rewrite (filter_events _ (fun _ => []) (LintVisitor_init file ∅ proj art)).
  - by rewrite flat_map_nil.
  - intros v n (_ & Hd & _). by apply emitted_no_import_when_deny_empty.
  - apply same_config_refl.
Qed.

(** ** Findings come from imports and calls only *)

Lemma no_rule_node_children (l : list node) :
  Forall (fun n => has_rule_node n = false -> events n = []) l ->
  existsb has_rule_node l = false -> flat_map events l = [].
Proof.
  induction 1 as [|n l Hn _ IH]; [reflexivity|]. cbn [existsb flat_map].
  intros [H1 H2]%orb_false_elim. by rewrite Hn, IH.
Qed.

Lemma no_rule_node_events (n : node) : has_rule_node n = false -> events n = [].
Proof.
  induction n as
    [body IH | l c names | l c m names lv | l c f args kws IHf IHa IHk
    | a x IHx | id | x a IHx | k | ch IH] using node_tree_ind;
    cbn [has_rule_node events]; try discriminate; try done;
    by apply no_rule_node_children.
Qed.

(** X14: a file that parses, is traversed to the end and holds no import
    statement and no call gets no finding at all. *)
Theorem X14_no_import_no_call_no_finding
    (fs : filesystem) (file : string) (deny : gset string) (proj art : string)
    (tree : node) :
  fs file = Parses tree ->
  has_rule_node tree = false ->
  lint_file fs file deny proj art = Returned [].
Proof.
  intros Hfs Hn. unfold lint_file. rewrite Hfs, visit_events.
  by rewrite (no_rule_node_events tree Hn).
Qed.

(** ** Batches and the exit status *)










(** ** The traversal reaches every import and every call *)

Lemma occurs_events (n tree : node) :
  occurs n tree -> is_rule_node n = true -> In n (events tree).
Proof.
  intros H Hn. induction H as
    [|body m Hin _ IH|ch m Hin _ IH|l c f args kws _ IH
    |l c f args kws m Hin _ IH|l c f args kws m Hin _ IH
    |a value _ IH|value a _ IH]; cbn [events].
  - destruct n; try discriminate; by left.
  - apply in_flat_map. eauto.
  - apply in_flat_map. eauto.
  - right. apply in_or_app. auto.
  - right. apply in_or_app. right. apply in_or_app. left.
    apply in_flat_map. eauto.
  - right. apply in_or_app. right. apply in_or_app. right.
    apply in_flat_map. eauto.
  - exact IH.
  - exact IH.
Qed.

Lemma events_reach (n : node) (evs : list node) :
  In n evs ->
  forall v0, exists v,
    same_config v v0
    /\ forall F, In F (emitted v n) ->
                 In F (findings (fold_left own_visit evs v0)).
Proof.
  induction evs as [|a evs IH]; intros Hin v0; [destruct Hin|].
  cbn [fold_left]. destruct Hin as [->|Hin].
  - exists v0. split; [apply same_config_refl|]. intros F HF.
    destruct (events_findings_prefix evs (own_visit v0 n)) as [rest ->].
    apply in_or_app. left. rewrite own_visit_findings.
    apply in_or_app. by right.
  - destruct (IH Hin (own_visit v0 a)) as (v & Hv & Hreach).
    exists v. split; [|exact Hreach].
    eapply same_config_trans; [exact Hv|apply own_visit_config].
Qed.

(** X17: the traversal reaches a call wherever it occurs in the tree (in a
    callee, an argument, a keyword value, a nested statement).  A call
    [open(p, m, ...)] that occurs anywhere in a file that parses and is
    traversed to the end, with a
    write-enabling literal mode and a literal path whose normal form is
    absolute and outside the two roots, has its FS001 finding in the
    result. *)
Theorem X17_nested_open_call_is_reported
    (fs : filesystem) (file : string) (deny : gset string) (proj art : string)
    (tree : node) (l c : Z) (p m : string) (rest kws : list node) :
  fs file = Parses tree ->
  occurs (NCall l c (NName "open")
            (NConstant (CStr p) :: NConstant (CStr m) :: rest) kws) tree ->
  write_enabling m = true ->
  PosixPath.isabs (PosixPath.normpath p) = true ->
  PyStr.startswith (PosixPath.normpath p) (PosixPath.normpath proj) = false ->
  PyStr.startswith (PosixPath.normpath p) (PosixPath.normpath art) = false ->
  exists fl,
    lint_file fs file deny proj art = Returned fl
    /\ In (Finding.mk file (Some l) (Some c) "ERROR" "FS001"
             ("Write outside allowed dirs: '" +:+ p +:+ "'")) fl.
Proof.
  intros Hfs Hocc Hm Habs Hproj Hart.
  exists (lint_tree file deny proj art tree). split.
  - unfold lint_file. by rewrite Hfs.
  - unfold lint_tree. rewrite visit_events.
    destruct (events_reach _ _ (occurs_events _ _ Hocc eq_refl)
                (LintVisitor_init file deny proj art))
      as (v & (Hp & _ & Hr & Ha) & Hreach).
    apply Hreach. rewrite emitted_Call. unfold call_findings.
    apply in_or_app. right. apply in_or_app. right. apply in_or_app. right.
    change (_resolve_call_target (alias_map v) (NName "open"))
      with (@None string, "open").
    rewrite write_violation_open_literals, Hm, Habs, Hr, Ha. cbn [project_root
      artifacts_root LintVisitor_init]. rewrite Hproj, Hart.
    assert (Hdot : PyStr.startswith (PosixPath.normpath p) "./" = false).
    { unfold PosixPath.isabs, PyStr.startswith in *.
      destruct (PosixPath.normpath p) as [|ch r]; [discriminate|].
      cbn [String.prefix] in *.
      destruct (Ascii.ascii_dec ch "/") as [->|Hne]; [reflexivity|].
      destruct (Ascii.ascii_dec "/" ch); [congruence|discriminate]. }
    rewrite Hdot. cbn [orb negb]. left. unfold fs001_finding. by rewrite Hp.
Qed.

(** X18: the traversal reaches an import statement wherever it occurs in
    the tree (inside a function body, a conditional, a [try]).  Every name
    of an [import] statement occurring in a file that parses and is
    traversed to the end whose top-level segment is in the deny set has its IMP001 finding in the
    result, at the position of the statement. *)
Theorem X18_nested_import_is_reported
    (fs : filesystem) (file : string) (deny : gset string) (proj art : string)
    (tree : node) (l c : Z) (names : list alias) (al : alias) :
  fs file = Parses tree ->
  occurs (NImport l c names) tree ->
  In al names ->
  PyStr.top_segment (name al) ∈ deny ->
  exists fl,
    lint_file fs file deny proj art = Returned fl
    /\ In (Finding.mk file (Some l) (Some c) "ERROR" "IMP001"
             ("Disallowed import: '" +:+ PyStr.top_segment (name al) +:+ "'"))
          fl.
Proof.
  intros Hfs Hocc Hal Hdeny.
  exists (lint_tree file deny proj art tree). split.
  - unfold lint_file. by rewrite Hfs.
  - unfold lint_tree. rewrite visit_events.
    destruct (events_reach _ _ (occurs_events _ _ Hocc eq_refl)
                (LintVisitor_init file deny proj art))
      as (v & (Hp & Hd & _) & Hreach).
    apply Hreach. rewrite emitted_Import. apply in_flat_map.
    exists al. split; [exact Hal|]. unfold import_alias_findings.
    rewrite Hd. cbn [deny_imports LintVisitor_init].
    rewrite bool_decide_eq_true_2 by done. left.
    unfold imp001_finding. by rewrite Hp.
Qed.

(** X19: a call [x.f(...)] where the name [x] stands for a module whose
    top-level segment is [socket] or [requests] (bound by an import under
    any alias, or the unbound name itself) adds exactly one finding, the
    CAL003 ERROR that names the resolved module. *)
Theorem X19_network_call_CAL003
    (v : LintVisitor) (l c : Z) (x f m : string) (args kws : list node) :
  default x (alias_map v !! x) = m ->
  PyStr.truthy m = true ->
  PyStr.top_segment m = "socket" \/ PyStr.top_segment m = "requests" ->
  findings (own_visit v (NCall l c (NAttribute (NName x) f) args kws))
  = findings v ++ [Finding.mk (path v) (Some l) (Some c) "ERROR" "CAL003"
                     ("Network usage via '" +:+ m +:+ "' is disallowed")].
Proof.
  intros Hx Ht Htop. rewrite own_visit_call_findings. f_equal.
  unfold call_findings. cbn [_resolve_call_target _resolve_base].
  rewrite Hx, write_violation_module. cbn [fst snd]. unfold top_of.
  rewrite Ht.
  rewrite (bool_decide_eq_false_2 (_ ∈ DANGEROUS_CALLS)).
  2:{ intros Hd. apply dangerous_cases in Hd.
      destruct Hd as [Hd|[Hd|[Hd|Hd]]]; injection Hd as -> _;
        destruct Htop as [H|H]; vm_compute in H; discriminate. }
  rewrite (bool_decide_eq_false_2 (Some _ = Some "subprocess"))
    by (intros [= H]; rewrite H in Htop; destruct Htop; discriminate).
  rewrite (bool_decide_eq_true_2 (_ ∈ ["socket"; "requests"]))
    by (rewrite !elem_of_cons; tauto).
  reflexivity.
Qed.

(** ** The further properties on concrete inputs *)

(** [eval("1")] *)
Lemma X1_witness :
  findings (own_visit fresh_visitor
              (NCall 1 0 (NName "eval") [NConstant (CStr "1")] []))
  = findings fresh_visitor
    ++ [Finding.mk (path fresh_visitor) (Some 1) (Some 0) "ERROR" "CAL001"
          ("Dangerous call: builtins." +:+ "eval")].
Proof.
  apply (X1_eval_exec_always_CAL001 fresh_visitor 1 0 "eval"
           [NConstant (CStr "1")] []).
  left. reflexivity.
Defined.

(** [import os as o], then [o.system("ls")]. *)
Lemma X2_witness :
  findings (own_visit after_import_os_as_o
              (NCall 2 0 (NAttribute (NName "o") "system")
                 [NConstant (CStr "ls")] []))
  = findings after_import_os_as_o
    ++ [Finding.mk (path after_import_os_as_o) (Some 2) (Some 0) "ERROR"
          "CAL001" ("Dangerous call: os." +:+ "system")].
Proof.
  apply (X2_os_system_through_alias_CAL001 after_import_os_as_o 2 0 "o"
           "system" [NConstant (CStr "ls")] []).
  - vm_compute. reflexivity.
  - left. reflexivity.
Defined.

(** [from os import system], then [system("ls")]. *)
Lemma X3_witness :
  List.filter (has_code "CAL001")
    (findings (own_visit after_from_os_import_system
                 (NCall 2 0 (NName "system") [NConstant (CStr "ls")] [])))
  = List.filter (has_code "CAL001") (findings after_from_os_import_system).
Proof.
  apply (X3_bare_name_call_never_CAL001 after_from_os_import_system 2 0
           "system" [NConstant (CStr "ls")] []); discriminate.
Defined.

(** [from subprocess import run], then [run("ls")]. *)
Lemma X4_witness :
  findings (own_visit after_from_subprocess_import_run
              (NCall 2 0 (NName "run") [NConstant (CStr "ls")] []))
  = findings after_from_subprocess_import_run
    ++ [Finding.mk (path after_from_subprocess_import_run) (Some 2) (Some 0)
          "ERROR" "CAL002" "Process spawning via 'subprocess' is disallowed"].
Proof.
  apply (X4_from_subprocess_import_call_CAL002
           after_from_subprocess_import_run 2 0 "run" "subprocess"
           [NConstant (CStr "ls")] []).
  - apply (bool_decide_unpack _). vm_compute. exact I.
  - vm_compute. reflexivity.
  - reflexivity.
Defined.

(** [import os.path], then [os.system("ls")]. *)
Lemma X5_witness :
  alias_map (own_visit fresh_visitor (NImport 1 0 [Alias "os.path" None]))
    !! PyStr.top_segment "os.path" = Some "os.path"
  /\ List.filter (has_code "CAL001")
       (findings (own_visit
                    (own_visit fresh_visitor (NImport 1 0 [Alias "os.path" None]))
                    (NCall 2 0
                       (NAttribute (NName (PyStr.top_segment "os.path")) "system")
                       [NConstant (CStr "ls")] [])))
     = List.filter (has_code "CAL001")
         (findings (own_visit fresh_visitor
                      (NImport 1 0 [Alias "os.path" None]))).
Proof.
  apply (X5_dotted_import_call_no_CAL001 fresh_visitor 1 0 2 0 "os.path"
           "system" [NConstant (CStr "ls")] []); discriminate.
Defined.

(** [import subprocess as sp], then [sp.a.b.Popen("ls")]. *)
Lemma X6_witness :
  exists fl,
    lint_file (every_file tree_sp_chain) "a.py" default_deny
      "/project" "/artifacts" = Returned fl
    /\ In (Finding.mk "a.py" (Some 2) (Some 0) "ERROR" "CAL002"
             "Process spawning via 'subprocess' is disallowed") fl.
Proof.
  apply (X6_attribute_chain_CAL002
           (every_file tree_sp_chain) "a.py" default_deny "/project"
           "/artifacts" tree_sp_chain [] [] [] 1 0 2 0 "sp" "Popen"
           ["a"; "b"] [NConstant (CStr "ls")] []).
  - reflexivity.
  - discriminate.
  - reflexivity.
  - constructor.
Defined.

(** [getattr(os, "system")("ls")] *)
Lemma X7_witness :
  own_visit fresh_visitor
    (NCall 2 0 callee_getattr [NConstant (CStr "ls")] [])
  = fresh_visitor.
Proof.
  apply (X7_opaque_callee_no_finding fresh_visitor 2 0 callee_getattr
           [NConstant (CStr "ls")] []).
  left. reflexivity.
Defined.

(** [open("/artifacts/out.txt", "w")] *)
Lemma X8_witness :
  List.filter (has_code "FS001")
    (findings (own_visit fresh_visitor
                 (NCall 1 0 (NName "open")
                    (NConstant (CStr "/artifacts/out.txt")
                     :: [NConstant (CStr "w")]) [])))
  = List.filter (has_code "FS001") (findings fresh_visitor).
Proof.
  apply (X8_write_under_allowed_root_no_FS001 fresh_visitor 1 0
           "/artifacts/out.txt" [NConstant (CStr "w")] []).
  right. reflexivity.
Defined.

(** [open("/etc/passwd", "r+")] *)
Lemma X9_witness :
  List.filter (has_code "FS001")
    (findings (own_visit fresh_visitor
                 (NCall 1 0 (NName "open")
                    (NConstant (CStr "/etc/passwd")
                     :: NConstant (CStr "r+") :: []) [])))
  = List.filter (has_code "FS001") (findings fresh_visitor).
Proof.
  apply (X9_mode_without_w_a_x_no_FS001 fresh_visitor 1 0
           (NConstant (CStr "/etc/passwd")) "r+" [] []).
  reflexivity.
Defined.


Lemma X14_witness :
  lint_file (every_file tree_assignment) "a.py" default_deny
    "/project" "/artifacts" = Returned [].
Proof.
  apply (X14_no_import_no_call_no_finding (every_file tree_assignment) "a.py"
           default_deny "/project" "/artifacts" tree_assignment);
    reflexivity.
Defined.



Lemma X17_witness :
  exists fl,
    lint_file (every_file tree_nested) "a.py" default_deny
      "/project" "/artifacts" = Returned fl
    /\ In (Finding.mk "a.py" (Some 3) (Some 6) "ERROR" "FS001"
             ("Write outside allowed dirs: '" +:+ "/etc/passwd" +:+ "'")) fl.
Proof.
  apply (X17_nested_open_call_is_reported (every_file tree_nested) "a.py"
           default_deny "/project" "/artifacts" tree_nested 3 6
           "/etc/passwd" "w" [] []); try reflexivity.
  eapply occurs_module; [right; left; reflexivity|].
  eapply occurs_other; [left; reflexivity|].
  eapply occurs_arg; [left; reflexivity|].
  apply occurs_func. apply occurs_attribute. apply occurs_here.
Defined.

Lemma X18_witness :
  exists fl,
    lint_file (every_file tree_nested) "a.py" default_deny
      "/project" "/artifacts" = Returned fl
    /\ In (Finding.mk "a.py" (Some 2) (Some 4) "ERROR" "IMP001"
             ("Disallowed import: '"
              +:+ PyStr.top_segment (name (Alias "socket" None)) +:+ "'")) fl.
Proof.
  apply (X18_nested_import_is_reported (every_file tree_nested) "a.py"
           default_deny "/project" "/artifacts" tree_nested 2 4
           [Alias "socket" None] (Alias "socket" None)).
  - reflexivity.
  - eapply occurs_module; [left; reflexivity|].
    eapply occurs_other; [right; left; reflexivity|]. apply occurs_here.
  - left. reflexivity.
  - apply (bool_decide_unpack _). vm_compute. exact I.
Defined.

(** [requests.get("http://x")] without any import. *)
Lemma X19_witness :
  findings (own_visit fresh_visitor
              (NCall 1 0 (NAttribute (NName "requests") "get")
                 [NConstant (CStr "http://x")] []))
  = findings fresh_visitor
    ++ [Finding.mk (path fresh_visitor) (Some 1) (Some 0) "ERROR" "CAL003"
          ("Network usage via '" +:+ "requests" +:+ "' is disallowed")].
Proof.
  apply (X19_network_call_CAL003 fresh_visitor 1 0 "requests" "get" "requests"
           [NConstant (CStr "http://x")] []).
  - reflexivity.
  - reflexivity.
  - right. reflexivity.
Defined.
